(** * A shallow embedding of the ultimate-nag52 diagnostic backend

    Sources embedded here:
    - backend/src/diag/ident.rs     : EgsMode::from, EgsMode::to_string, PCBVersion::from_date,
                                      PCBVersion::to_string, bcd_decode_to_int
    - backend/src/hw/firmware.rs    : load_binary, FirmwareHeader
    - backend/src/diag/mod.rs       : AdapterHw::try_connect, Nag52Diag::new, try_reconnect,
                                      with_kwp, can_read_log
    - config_app/src/ui/crashanalyzer.rs : ReadState::is_done, init_flash_mode, on_flash_end,
                                      the coredump thread
    - config_app/src/ui/settings_ui_gen.rs : read_scn_settings, the thread of TcuAdvSettingsUi::new

    Integers of the Rust code (u8, u16, u32) are [Z]; byte buffers are [list Z]
    whose elements are in 0..255. *)

From Stdlib Require Import ZArith List String Bool Lia.
Import ListNotations.
Open Scope Z_scope.

(* ------------------------------------------------------------------ *)
(** ** backend/src/diag/ident.rs *)

Module Ident.

Inductive EgsMode : Type :=
| EGS51
| EGS52
| EGS53
| Unknown (code : Z).

(** [impl From<u16> for EgsMode]: the match arms as written. *)
Definition EgsMode_from (diag_var_code : Z) : EgsMode :=
  if Z.eqb diag_var_code 0x0251 then EGS51
  else if Z.eqb diag_var_code 0x0252 then EGS51
  else if Z.eqb diag_var_code 0x0253 then EGS51
  else Unknown diag_var_code.

Inductive PCBVersion : Type :=
| OnePointOne
| OnePointTwo
| OnePointThree
| PCB_Unknown.

(** [PCBVersion::from_date]. *)
Definition PCBVersion_from_date (w y : Z) : PCBVersion :=
  if (w =? 49) && (y =? 21) then OnePointOne
  else if (w =? 27) && (y =? 22) then OnePointTwo
  else if (w =? 49) && (y =? 22) then OnePointThree
  else PCB_Unknown.

(** [fn bcd_decode_to_int(u: u8) -> u32 { 10 * (u as u32 / 16) + (u as u32 % 16) }] *)
Definition bcd_decode_to_int (u : Z) : Z :=
  10 * (u / 16) + (u mod 16).

Record IdentData : Type := {
  egs_mode : EgsMode;
  board_ver : PCBVersion;
  manf_day : Z;
  manf_month : Z;
  manf_year : Z;
  hw_week : Z;
  hw_year : Z;
  sw_week : Z;
  sw_year : Z
}.

(** The fields of the library's [DaimlerEcuIdent] that [query_ecu_data] reads. *)
Record DaimlerEcuIdent : Type := {
  diag_info_id : Z;
  ecu_production_day : Z;
  ecu_production_month : Z;
  ecu_production_year : Z;
  ecu_hw_build_week : Z;
  ecu_hw_build_year : Z;
  ecu_sw_build_week : Z;
  ecu_sw_build_year : Z
}.

(** The body of the closure of [query_ecu_data]. *)
Definition ident_data_of (ident : DaimlerEcuIdent) : IdentData := {|
  egs_mode := EgsMode_from (diag_info_id ident);
  board_ver := PCBVersion_from_date (bcd_decode_to_int (ecu_hw_build_week ident))
                                    (bcd_decode_to_int (ecu_hw_build_year ident));
  manf_day := bcd_decode_to_int (ecu_production_day ident);
  manf_month := bcd_decode_to_int (ecu_production_month ident);
  manf_year := bcd_decode_to_int (ecu_production_year ident);
  hw_week := bcd_decode_to_int (ecu_hw_build_week ident);
  hw_year := bcd_decode_to_int (ecu_hw_build_year ident);
  sw_week := bcd_decode_to_int (ecu_sw_build_week ident);
  sw_year := bcd_decode_to_int (ecu_sw_build_year ident)
|}.

End Ident.

(* ------------------------------------------------------------------ *)
(** ** backend/src/hw/firmware.rs *)

Module Firmware.

Definition HEADER_SIZE : nat := 256.
Definition HEADER_MAGIC : list Z := [0x32; 0x54; 0xCD; 0xAB].

(** Little-endian decoding of a byte slice ([endian = "lsb"]). *)
Fixpoint le_decode (bs : list Z) : Z :=
  match bs with
  | [] => 0
  | b :: rest => b + 256 * le_decode rest
  end.

(** [buf[a..b]] *)
Definition slice (a b : nat) (buf : list Z) : list Z :=
  firstn (b - a) (skipn a buf).

(** [FirmwareHeader], 256 bytes ([assert_eq_size!]). The struct has no
    [#[repr(C)]], so the offsets of its fields are the compiler's choice and
    not those of the declaration; the model keeps the 256 bytes the header
    is made of. *)
Record FirmwareHeader : Type := {
  header_bytes : list Z
}.

(** [std::ptr::read] of a [FirmwareHeader] at the start of [bs]: a copy of
    its first [HEADER_SIZE] bytes. *)
Definition read_header (bs : list Z) : FirmwareHeader := {|
  header_bytes := firstn HEADER_SIZE bs
|}.

Record Firmware : Type := {
  raw : list Z;
  header : FirmwareHeader
}.

Inductive FirmwareLoadError : Type :=
| NotValid (msg : string)
| IoError.

Fixpoint list_Z_eqb (a b : list Z) : bool :=
  match a, b with
  | [], [] => true
  | x :: xs, y :: ys => (x =? y) && list_Z_eqb xs ys
  | _, _ => false
  end.

(** The scanning [loop] of [load_binary], from [header_start_idx]:
    [Some idx] on [break], [None] on the [return Err(...)] of the loop.
    The loop leaves at [header_start_idx = 51] at the latest, so [fuel]
    iterations with [fuel + header_start_idx > 51] always reach an exit. *)
Fixpoint scan_magic (fuel : nat) (buf : list Z) (header_start_idx : nat) : option nat :=
  match fuel with
  | O => None
  | S fuel' =>
      let tmp := skipn header_start_idx buf in
      if Nat.ltb (List.length tmp) (List.length HEADER_MAGIC) || Nat.ltb 50 header_start_idx then None
      else if list_Z_eqb (firstn (List.length HEADER_MAGIC) tmp) HEADER_MAGIC then Some header_start_idx
      else scan_magic fuel' buf (S header_start_idx)
  end.

(** [load_binary] after [f.read_to_end(&mut buf)] has produced [buf]. *)
Definition load_binary (buf : list Z) : FirmwareLoadError + Firmware :=
  match scan_magic 52 buf 0 with
  | None => inl (NotValid "Could not find header magic")
  | Some header_start_idx =>
      if Nat.ltb (List.length (skipn header_start_idx buf)) HEADER_SIZE then
        inl (NotValid "Could not find header magic")
      else
        inr {| raw := buf; header := read_header (skipn header_start_idx buf) |}
  end.

End Firmware.

(* ------------------------------------------------------------------ *)
(** ** backend/src/diag/mod.rs *)

Module Diag.

Inductive AdapterType : Type :=
| AT_USB
| AT_Passthru
| AT_SocketCAN.

Record HardwareInfo : Type := { hw_name : string }.

(** An opened device behind its [Arc<Mutex<..>>]. *)
Record Device : Type := { dev_info : HardwareInfo }.

Inductive AdapterHw : Type :=
| Usb (d : Device)
| Passthru (d : Device)
| SocketCAN (d : Device).

Inductive HardwareError : Type :=
| DeviceNotOpen
| DeviceNotFound
| HwIoError.

Inductive DiagError : Type :=
| DiagHardwareError (e : HardwareError)
| ECUError (code : Z)
| InvalidResponseLength
| Timeout.

Record IsoTPSettings : Type := {
  block_size : Z;
  st_min : Z;
  extended_addresses : option (Z * Z);
  pad_frame : bool;
  can_speed : Z;
  can_use_ext_addr : bool
}.

Record TimeoutConfig : Type := {
  read_timeout_ms : Z;
  write_timeout_ms : Z
}.

Record DiagServerBasicOptions : Type := {
  send_id : Z;
  recv_id : Z;
  timeout_cfg : TimeoutConfig
}.

Record DiagServerAdvancedOptions : Type := {
  global_tp_id : Z;
  tester_present_interval_ms : Z;
  tester_present_require_response : bool;
  global_session_control : bool;
  tp_ext_id : option Z;
  command_cooldown_ms : Z
}.

Record DiagSessionMode : Type := {
  mode_id : Z;
  tp_require : bool;
  mode_name : string
}.

(** The session modes known to a [Kwp2000Protocol]. *)
Record Kwp2000Protocol : Type := { session_modes : list DiagSessionMode }.

Definition register_session_type (p : Kwp2000Protocol) (m : DiagSessionMode) : Kwp2000Protocol :=
  {| session_modes := session_modes p ++ [m] |}.

Definition AdapterHw_get_type (hw : AdapterHw) : AdapterType :=
  match hw with
  | Usb _ => AT_USB
  | Passthru _ => AT_Passthru
  | SocketCAN _ => AT_SocketCAN
  end.

Definition AdapterHw_get_hw_info (hw : AdapterHw) : HardwareInfo :=
  match hw with
  | Usb d | Passthru d | SocketCAN d => dev_info d
  end.

(** Whether [consume_log_receiver] hands out a receiver: only the USB adapter does. *)
Definition has_log_receiver (hw : AdapterHw) : bool :=
  match hw with
  | Usb _ => true
  | _ => false
  end.

Section Session.

(** The [ecu_diagnostics] library: channels, sessions, and the scanners
    that open a device by name. *)
Variable Channel Session : Type.
Variable Kwp2000Protocol_default : Kwp2000Protocol.
Variable create_iso_tp_channel : AdapterHw -> HardwareError + Channel.
Variable new_over_iso_tp :
  Kwp2000Protocol -> Channel -> IsoTPSettings -> DiagServerBasicOptions ->
  option DiagServerAdvancedOptions -> DiagError + Session.
Variable open_device_by_name : AdapterType -> HardwareInfo -> HardwareError + Device.

(** [AdapterHw::try_connect] *)
Definition AdapterHw_try_connect (info : HardwareInfo) (ty : AdapterType) : HardwareError + AdapterHw :=
  match open_device_by_name ty info with
  | inl e => inl e
  | inr d =>
      inr (match ty with
           | AT_USB => Usb d
           | AT_Passthru => Passthru d
           | AT_SocketCAN => SocketCAN d
           end)
  end.

Record Nag52Diag : Type := {
  info : HardwareInfo;
  endpoint : option AdapterHw;
  endpoint_type : AdapterType;
  server : option Session;
  log_receiver : bool
}.

Definition channel_cfg (hw : AdapterHw) : IsoTPSettings :=
  match hw with
  | SocketCAN _ =>
      {| block_size := 8; st_min := 0x20; extended_addresses := None;
         pad_frame := true; can_speed := 500000; can_use_ext_addr := false |}
  | _ =>
      {| block_size := 0; st_min := 0; extended_addresses := None;
         pad_frame := true; can_speed := 500000; can_use_ext_addr := false |}
  end.

Definition basic_opts : DiagServerBasicOptions := {|
  send_id := 0x07E1;
  recv_id := 0x07E9;
  timeout_cfg := {| read_timeout_ms := 10000; write_timeout_ms := 10000 |}
|}.

Definition adv_opts : DiagServerAdvancedOptions := {|
  global_tp_id := 0;
  tester_present_interval_ms := 2000;
  tester_present_require_response := true;
  global_session_control := false;
  tp_ext_id := None;
  command_cooldown_ms := 0
|}.

Definition protocol : Kwp2000Protocol :=
  register_session_type Kwp2000Protocol_default
    {| mode_id := 0x93; tp_require := true; mode_name := "UN52DevMode" |}.

(** [Nag52Diag::new] *)
Definition new (hw : AdapterHw) : DiagError + Nag52Diag :=
  match create_iso_tp_channel hw with
  | inl e => inl (DiagHardwareError e)
  | inr ch =>
      match new_over_iso_tp protocol ch (channel_cfg hw) basic_opts (Some adv_opts) with
      | inl e => inl e
      | inr kwp =>
          inr {| info := AdapterHw_get_hw_info hw;
                 endpoint_type := AdapterHw_get_type hw;
                 endpoint := Some hw;
                 server := Some kwp;
                 log_receiver := has_log_receiver hw |}
      end
  end.

(** [Nag52Diag::try_reconnect]: [self] is taken apart first; on an error
    the taken-apart value stays in place. *)
Definition try_reconnect (self : Nag52Diag) : (DiagError + unit) * Nag52Diag :=
  let self1 := {| info := info self; endpoint := None; endpoint_type := endpoint_type self;
                  server := None; log_receiver := log_receiver self |} in
  match AdapterHw_try_connect (info self1) (endpoint_type self1) with
  | inl e => (inl (DiagHardwareError e), self1)
  | inr dev =>
      match new dev with
      | inl e => (inl e, self1)
      | inr n => (inr tt, n)
      end
  end.

(** [Nag52Diag::with_kwp]: the closure is an [FnMut], its effects are the
    state [S] it threads. *)
Definition with_kwp {S X : Type} (self : Nag52Diag)
    (kwp_fn : Session -> S -> (DiagError + X) * S) (s : S) : (DiagError + X) * S :=
  match server self with
  | None => (inl (DiagHardwareError DeviceNotOpen), s)
  | Some k => kwp_fn k s
  end.

Variable S : Type.
(** [read_daimler_identification] of the library, against the ECU state [S]. *)
Variable read_daimler_identification : Session -> S -> (DiagError + Ident.DaimlerEcuIdent) * S.

(** [Nag52Diag::query_ecu_data] *)
Definition query_ecu_data (self : Nag52Diag) (s : S) : (DiagError + Ident.IdentData) * S :=
  with_kwp self (fun k s0 =>
    let (r, s1) := read_daimler_identification k s0 in
    (match r with
     | inl e => inl e
     | inr ident => inr (Ident.ident_data_of ident)
     end, s1)) s.

End Session.

End Diag.

(* ------------------------------------------------------------------ *)
(** ** backend/src/diag/settings.rs *)

Module Settings.

(** Modelled from the spec: [pack_settings] and [unpack_settings] of
    backend/src/diag/settings.rs, which is not among the sources. Spec 4.3
    and 4.4: a settings block is a fixed-layout record keyed by its one-byte
    SCN id; its fields are packed little-endian with no padding; [unpack]
    validates the length against the layout, then decodes. A settings type
    is here its SCN id with the byte widths of its fields, a value the list of
    its field values. *)
Record TcuSettings : Type := {
  get_scn_id : Z;
  field_widths : list nat
}.

Fixpoint le_encode (w : nat) (v : Z) : list Z :=
  match w with
  | O => []
  | S w' => (v mod 256) :: le_encode w' (v / 256)
  end.

Definition total_width (T : TcuSettings) : nat := fold_right plus O (field_widths T).

(** Modelled from the spec: the packing of [pack_settings]. *)
Fixpoint pack_fields (ws : list nat) (v : list Z) : list Z :=
  match ws, v with
  | w :: ws', x :: v' => le_encode w x ++ pack_fields ws' v'
  | _, _ => []
  end.

Fixpoint unpack_fields (ws : list nat) (bs : list Z) : list Z :=
  match ws with
  | [] => []
  | w :: ws' => Firmware.le_decode (firstn w bs) :: unpack_fields ws' (skipn w bs)
  end.

(** Modelled from the spec: [pack_settings(id, value)]. *)
Definition pack_settings (T : TcuSettings) (id : Z) (v : list Z) : list Z :=
  pack_fields (field_widths T) v.

(** Modelled from the spec: [unpack_settings(id, bytes)], failing with a
    length mismatch when the input does not have the declared size. *)
Definition unpack_settings (T : TcuSettings) (id : Z) (bs : list Z) : string + list Z :=
  if Nat.eqb (List.length bs) (total_width T) then inr (unpack_fields (field_widths T) bs)
  else inl "Settings length mismatch"%string.

(** A valid value: one value per field, each in the range of its width. *)
Fixpoint valid_fields (ws : list nat) (v : list Z) : Prop :=
  match ws, v with
  | [], [] => True
  | w :: ws', x :: v' => 0 <= x < 256 ^ Z.of_nat w /\ valid_fields ws' v'
  | _, _ => False
  end.

Definition valid (T : TcuSettings) (v : list Z) : Prop := valid_fields (field_widths T) v.

Inductive DataState (A : Type) : Type :=
| LoadOk (a : A)
| Unint
| LoadErr (msg : string).
Arguments LoadOk {A} a.
Arguments Unint {A}.
Arguments LoadErr {A} msg.

End Settings.

(* ------------------------------------------------------------------ *)
(** ** config_app/src/ui/crashanalyzer.rs and settings_ui_gen.rs *)

Module Crash.
Import Diag.

Inductive ReadState : Type :=
| RS_None
| Prepare
| ReadingBlock (id out_of bytes_written : Z)
| Completed
| Aborted (reason : string).

(** A request sent through the diagnostic server. *)
Inductive Req : Type :=
| ReqSetSession (mode : Z)           (* set_diagnostic_session_mode *)
| ReqReadLocalId (id : Z)            (* read_custom_local_identifier *)
| ReqRaw (bytes : list Z).           (* send_byte_array_with_response *)

(** [SessionType::Reprogramming] of KWP2000. *)
Definition SESSION_REPROGRAMMING : Z := 0x85.

(** The outcome of a computation of the thread: a value, an error to
    propagate with [?], a panic, or the model's loop bound exhausted. *)
Inductive Res (A : Type) : Type :=
| ROk (a : A)
| RErr (e : DiagError)
| RPanic
| RFuel.
Arguments ROk {A} a.
Arguments RErr {A} e.
Arguments RPanic {A}.
Arguments RFuel {A}.

Definition diag_error_string (e : DiagError) : string :=
  match e with
  | DiagHardwareError _ => "Hardware error"
  | ECUError _ => "ECU error"
  | InvalidResponseLength => "Invalid response length"
  | Timeout => "Timeout"
  end.

Section Thread.

(** The ECU (and the library below [send_byte_array_with_response]),
    with its state. *)
Variable SrvSt : Type.
Variable ecu : SrvSt -> Req -> (DiagError + list Z) * SrvSt.
(** Whether [File::create] succeeds on a path (its folder exists and may be
    written to). *)
Variable create_ok : string -> bool.

Record World : Type := {
  w_ecu : SrvSt;                           (* the ECU *)
  w_sent : list Req;                       (* every request sent, in order *)
  w_state : ReadState;                     (* the [Arc<RwLock<ReadState>>] *)
  w_published : list ReadState;            (* every write to it, in order *)
  w_files : list (string * list Z)         (* the contents of a file after each
                                              file operation, in order *)
}.

Definition M (A : Type) : Type := World -> Res A * World.

Definition ret {A} (a : A) : M A := fun w => (ROk a, w).
Definition bind {A B} (m : M A) (k : A -> M B) : M B :=
  fun w =>
    match m w with
    | (ROk a, w1) => k a w1
    | (RErr e, w1) => (RErr e, w1)
    | (RPanic, w1) => (RPanic, w1)
    | (RFuel, w1) => (RFuel, w1)
    end.
Definition fail {A} (e : DiagError) : M A := fun w => (RErr e, w).
Definition panic {A} : M A := fun w => (RPanic, w).

(** Handling an [Err] (a [match] on a [Result]); panics go through. *)
Definition try_m {A B} (m : M A) (k_ok : A -> M B) (k_err : DiagError -> M B) : M B :=
  fun w =>
    match m w with
    | (ROk a, w1) => k_ok a w1
    | (RErr e, w1) => k_err e w1
    | (RPanic, w1) => (RPanic, w1)
    | (RFuel, w1) => (RFuel, w1)
    end.

Notation "x <- m ;; k" := (bind m (fun x => k)) (at level 61, m at next level, right associativity).
Notation "m ;;; k" := (bind m (fun _ => k)) (at level 61, right associativity).

Definition exchange (r : Req) : M (list Z) :=
  fun w =>
    let (res, st') := ecu (w_ecu w) r in
    ((match res with inl e => RErr e | inr p => ROk p end),
     {| w_ecu := st'; w_sent := w_sent w ++ [r]; w_state := w_state w;
        w_published := w_published w; w_files := w_files w |}).

Definition publish (s : ReadState) : M unit :=
  fun w => (ROk tt, {| w_ecu := w_ecu w; w_sent := w_sent w; w_state := s;
                       w_published := w_published w ++ [s]; w_files := w_files w |}).

(** [File::create(p).unwrap()]: [p] is created, or truncated if it exists,
    and then holds no byte; a failed create panics. *)
Definition create_file (path : string) : M unit :=
  fun w =>
    if create_ok path then
      (ROk tt, {| w_ecu := w_ecu w; w_sent := w_sent w; w_state := w_state w;
                  w_published := w_published w; w_files := w_files w ++ [(path, [])] |})
    else (RPanic, w).

(** [write_all] on the file just created, which then holds [bytes]. The
    code discards its [Result]; the model's write succeeds. *)
Definition write_file (path : string) (bytes : list Z) : M unit :=
  fun w => (ROk tt, {| w_ecu := w_ecu w; w_sent := w_sent w; w_state := w_state w;
                       w_published := w_published w; w_files := w_files w ++ [(path, bytes)] |}).

(** [&v[n..]]: panics when [v] is shorter than [n]. *)
Definition slice_from (n : nat) (v : list Z) : M (list Z) :=
  if Nat.ltb (List.length v) n then panic else ret (skipn n v).

(** [x as u8] for a u32 [x]. *)
Definition as_u8 (x : Z) : Z := Z.land x 255.

(** [init_flash_mode] *)
Definition init_flash_mode : M (Z * Z * Z) :=
  exchange (ReqSetSession SESSION_REPROGRAMMING) ;;;
  res <- exchange (ReqReadLocalId 0x24) ;;
  if negb (Nat.eqb (List.length res) 8) then fail InvalidResponseLength else
  let address := Firmware.le_decode (Firmware.slice 0 4 res) in
  let size := Firmware.le_decode (Firmware.slice 4 8 res) in
  if size =? 0 then ret (0, 0, 0) else
  let upload_req := [0x35; 0x31;
                     as_u8 (Z.shiftr address 16); as_u8 (Z.shiftr address 8); as_u8 address;
                     as_u8 (Z.shiftr size 16); as_u8 (Z.shiftr size 8); as_u8 size] in
  res2 <- exchange (ReqRaw upload_req) ;;
  if negb (Nat.eqb (List.length res2) 3) then fail InvalidResponseLength else
  let bs := Z.lor (Z.shiftl (nth 1 res2 0) 8) (nth 2 res2 0) in
  ret (address, size, bs).

(** [on_flash_end]: in [File::create(p).unwrap().write_all(&read[20..])]
    the file is created before its argument [&read[20..]] is evaluated. *)
Definition on_flash_end (path : string) (read : list Z) : M unit :=
  exchange (ReqRaw [0x37]) ;;;
  create_file (path ++ "/dump.elf") ;;;
  body <- slice_from 20 read ;;
  write_file (path ++ "/dump.elf") body.

(** The [while (data.len() as u32) < size.1] loop: [Some data] when the
    loop ends, [None] after the [Err] arm has published [Aborted] and
    returned from the closure. *)
Fixpoint read_blocks (fuel : nat) (size block_count : Z) (data : list Z) (i : Z)
    : M (option (list Z)) :=
  match fuel with
  | O => fun w => (RFuel, w)
  | S fuel' =>
      if Z.of_nat (List.length data) <? size then
        try_m (exchange (ReqRaw [0x36; as_u8 (i + 1)]))
          (fun p =>
             payload <- slice_from 2 p ;;
             let data' := data ++ payload in
             let i' := i + 1 in
             publish (ReadingBlock (i' + 1) block_count (Z.of_nat (List.length data'))) ;;;
             read_blocks fuel' size block_count data' i')
          (fun e =>
             publish (Aborted ("ECU rejected transfer data: " ++ diag_error_string e)) ;;;
             ret None)
      else ret (Some data)
  end.

(** [size.1 / size.2] on u32: a division by zero panics. *)
Definition div_u32 (a b : Z) : M Z :=
  if b =? 0 then panic else ret (a / b).

(** [Result] of [on_flash_end] discarded. *)
Definition ignore_err (m : M unit) : M unit :=
  try_m m ret (fun _ => ret tt).

(** The closure run by the thread spawned from [CrashAnalyzerUI::make_ui]
    under [with_kwp], with the chosen save folder [save]. *)
Definition crash_read (fuel : nat) (save : string) : M unit :=
  publish Prepare ;;;
  try_m init_flash_mode
    (fun '(address, size, bs) =>
       if size =? 0 then publish Completed ;;; publish Completed
       else
         block_count <- div_u32 size bs ;;
         r <- read_blocks fuel size block_count [] 0 ;;
         match r with
         | None => ret tt     (* the [return Ok(())] of the [Err] arm *)
         | Some data => ignore_err (on_flash_end save data) ;;; publish Completed
         end)
    (fun e => publish (Aborted ("ECU rejected flash programming mode: " ++ diag_error_string e))).

(** [read_scn_settings], the server being open: the state written to [dest]. *)
Definition read_scn_settings (T : Settings.TcuSettings) : M (Settings.DataState (list Z)) :=
  try_m (exchange (ReqRaw [0x21; 0xFC; Settings.get_scn_id T]))
    (fun res =>
       body <- slice_from 2 res ;;
       ret (match Settings.unpack_settings T (Settings.get_scn_id T) body with
            | inr r => Settings.LoadOk r
            | inl e => Settings.LoadErr e
            end))
    (fun e => ret (Settings.LoadErr (diag_error_string e))).

End Thread.

End Crash.

Arguments Crash.World : clear implicits.
Arguments Crash.w_ecu {SrvSt} _.
Arguments Crash.w_sent {SrvSt} _.
Arguments Crash.w_state {SrvSt} _.
Arguments Crash.w_published {SrvSt} _.
Arguments Crash.w_files {SrvSt} _.
Arguments Crash.exchange {SrvSt} ecu r _.
Arguments Crash.init_flash_mode {SrvSt} ecu _.
Arguments Crash.on_flash_end {SrvSt} ecu create_ok path read _.
Arguments Crash.read_blocks {SrvSt} ecu fuel size block_count data i _.
Arguments Crash.crash_read {SrvSt} ecu create_ok fuel save _.
Arguments Crash.read_scn_settings {SrvSt} ecu T _.

(* ------------------------------------------------------------------ *)
(** ** An ECU holding a coredump

    The ECU side of the coredump sub-protocol: it reports [address] and
    the size of its dump for local identifier 0x24, grants block size [B]
    on request-upload (0x35), answers each transfer-data request (0x36) with
    the 2-byte echo header followed by the next block of at most [B] bytes,
    and acknowledges the transfer-exit (0x37). Its state is the part of the
    dump not sent yet. *)

Module Ecu.
Import Diag Crash.

Definition le_u32 (v : Z) : list Z := Settings.le_encode 4 v.

Definition dump_ecu (address B size : Z) (rem : list Z) (r : Req) : (DiagError + list Z) * list Z :=
  match r with
  | ReqSetSession _ => (inr [], rem)
  | ReqReadLocalId id =>
      if id =? 0x24 then (inr (le_u32 address ++ le_u32 size), rem)
      else (inl (ECUError 0x12), rem)
  | ReqRaw [] => (inl (ECUError 0x11), rem)
  | ReqRaw (cmd :: args) =>
      if cmd =? 0x35 then (inr [0x75; B / 256; B mod 256], rem)
      else if cmd =? 0x36 then
        (inr (0x76 :: nth 0 args 0 :: firstn (Z.to_nat B) rem), skipn (Z.to_nat B) rem)
      else if cmd =? 0x37 then (inr [0x77], rem)
      else (inl (ECUError 0x11), rem)
  end.

(** The ECU holding [dump] of an unspecified [address]. *)
Definition ecu_of (B : Z) (dump : list Z) := dump_ecu 0x3C0000 B (Z.of_nat (List.length dump)).

Definition init_world {St} (st : St) : World St :=
  {| w_ecu := st; w_sent := []; w_state := RS_None; w_published := []; w_files := [] |}.

(** The transfer-data requests numbered [j], [j+1], ..., [j+n-1]. *)
Definition transfer_reqs (j n : nat) : list Req :=
  map (fun k => ReqRaw [0x36; as_u8 (Z.of_nat k)]) (seq j n).

(** ceil(S / B) *)
Definition ceil_div (s b : nat) : nat := (s + b - 1) / b.

Definition is_transfer_req (r : Req) : bool :=
  match r with
  | ReqRaw (c :: _) => c =? 0x36
  | _ => false
  end.

End Ecu.

(* ================================================================== *)
(** * Properties *)

(* ------------------------------------------------------------------ *)
(** ** Identity decoding *)

Module IdentProps.
Import Ident.

(** C1 (code_bug). [EgsMode::from] maps each of the three variant codes
    0x0251, 0x0252 and 0x0253 to [EGS51]; no code is decoded to [EGS52] or
    [EGS53]. *)
Theorem egs_mode_from_collapses_variants :
  EgsMode_from 0x0251 = EGS51 /\ EgsMode_from 0x0252 = EGS51 /\ EgsMode_from 0x0253 = EGS51 /\
  (forall c, EgsMode_from c <> EGS52 /\ EgsMode_from c <> EGS53).
Proof.
  split; [reflexivity|]. split; [reflexivity|]. split; [reflexivity|].
  intro c. unfold EgsMode_from.
  destruct (c =? 0x0251); [split; discriminate|].
  destruct (c =? 0x0252); [split; discriminate|].
  destruct (c =? 0x0253); split; discriminate.
Qed.

Ltac split_eqb :=
  repeat match goal with
  | H : context [?a =? ?b] |- _ => destruct (Z.eqb_spec a b)
  | |- context [?a =? ?b] => destruct (Z.eqb_spec a b)
  end; simpl in *; subst.

(** C8. [PCBVersion::from_date] is the exact-match table
    (49,21) -> v1.1, (27,22) -> v1.2, (49,22) -> v1.3, anything else -> Unknown. *)
Theorem pcb_version_from_date_table : forall w y,
  (PCBVersion_from_date w y = OnePointOne <-> w = 49 /\ y = 21) /\
  (PCBVersion_from_date w y = OnePointTwo <-> w = 27 /\ y = 22) /\
  (PCBVersion_from_date w y = OnePointThree <-> w = 49 /\ y = 22) /\
  (PCBVersion_from_date w y = PCB_Unknown <->
     ~ (w = 49 /\ y = 21) /\ ~ (w = 27 /\ y = 22) /\ ~ (w = 49 /\ y = 22)).
Proof.
  intros w y. unfold PCBVersion_from_date.
  split_eqb; intuition (try discriminate; try lia).
Qed.

(** C9. [bcd_decode_to_int(b)] is [10*(b>>4) + (b & 0xF)] for every byte;
    on a byte whose nibbles [h], [l] are decimal digits it is the two-digit
    value [10*h + l]; 0x49 decodes to 49 and 0x00 to 0. *)
Theorem bcd_decode_to_int_spec :
  (forall b, 0 <= b < 256 ->
     bcd_decode_to_int b = 10 * Z.shiftr b 4 + Z.land b 0xF) /\
  (forall h l, 0 <= h <= 9 -> 0 <= l <= 9 -> bcd_decode_to_int (16 * h + l) = 10 * h + l) /\
  bcd_decode_to_int 0x49 = 49 /\ bcd_decode_to_int 0x00 = 0.
Proof.
  split; [|split; [|split; reflexivity]].
  - intros b _. unfold bcd_decode_to_int.
    rewrite Z.shiftr_div_pow2 by lia.
    change 0xF with (Z.ones 4). rewrite Z.land_ones by lia. reflexivity.
  - intros h l Hh Hl. unfold bcd_decode_to_int.
    rewrite (Z.add_comm (16 * h) l), (Z.mul_comm 16 h).
    rewrite Z.div_add by lia. rewrite Z.mod_add by lia.
    rewrite (Z.div_small l 16) by lia. rewrite (Z.mod_small l 16) by lia. lia.
Qed.

End IdentProps.

(* ------------------------------------------------------------------ *)
(** ** Firmware header discovery *)

Module FirmwareProps.
Import Firmware.

(** The magic starts at offset [m] of [buf]. *)
Definition has_magic (buf : list Z) (m : nat) : Prop :=
  firstn 4 (skipn m buf) = HEADER_MAGIC.

Lemma list_Z_eqb_spec : forall a b, list_Z_eqb a b = true <-> a = b.
Proof.
  induction a as [|x xs IH]; destruct b as [|y ys]; simpl; try (split; congruence).
  rewrite andb_true_iff, IH, Z.eqb_eq. split.
  - intros [-> ->]. reflexivity.
  - intros H. injection H. auto.
Qed.

Lemma has_magic_length : forall buf m, has_magic buf m -> (m + 4 <= List.length buf)%nat.
Proof.
  intros buf m H. unfold has_magic in H.
  assert (Hl : List.length (firstn 4 (skipn m buf)) = 4%nat) by (rewrite H; reflexivity).
  rewrite length_firstn, length_skipn in Hl. lia.
Qed.

Lemma scan_magic_spec : forall fuel buf idx m,
  (51 < fuel + idx)%nat ->
  scan_magic fuel buf idx = Some m <->
  (idx <= m <= 50)%nat /\ has_magic buf m /\ (forall j, (idx <= j < m)%nat -> ~ has_magic buf j).
Proof.
  induction fuel as [|fuel IH]; intros buf idx m Hf; cbn [scan_magic]; cbv zeta;
    change (List.length HEADER_MAGIC) with 4%nat.
  - (* no fuel left: the loop has already left at index 51 *)
    split; [discriminate|]. intros [Hm _]. lia.
  - destruct (Nat.ltb_spec (List.length (skipn idx buf)) 4) as [Hshort|Hlong];
      [|destruct (Nat.ltb_spec 50 idx) as [Hbig|Hsmall]]; cbn [orb].
    + split; [discriminate|]. intros [Hm [Hmag _]].
      apply has_magic_length in Hmag. rewrite length_skipn in Hshort. lia.
    + split; [discriminate|]. intros [Hm _]. lia.
    + destruct (list_Z_eqb (firstn 4 (skipn idx buf)) HEADER_MAGIC) eqn:Heq.
      * apply list_Z_eqb_spec in Heq. split.
        -- intros H. injection H as <-. repeat split; try lia; auto.
        -- intros [Hm [Hmag Hfirst]].
           destruct (Nat.eq_dec idx m) as [->|Hne]; [reflexivity|].
           exfalso. apply (Hfirst idx); [lia|exact Heq].
      * assert (Hno : ~ has_magic buf idx).
        { intro H. unfold has_magic in H. rewrite <- list_Z_eqb_spec in H. congruence. }
        rewrite IH by lia. split.
        -- intros [Hm [Hmag Hfirst]]. repeat split; try lia; auto.
           intros j Hj. destruct (Nat.eq_dec j idx) as [->|]; [exact Hno|]. apply Hfirst. lia.
        -- intros [Hm [Hmag Hfirst]].
           assert (idx <> m) by (intros ->; contradiction).
           repeat split; try lia; auto.
           intros j Hj. apply Hfirst. lia.
Qed.

(** [load_binary] succeeds exactly when [first_header_at buf m] for some [m]. *)
Definition first_header_at (buf : list Z) (m : nat) : Prop :=
  (m <= 50)%nat /\ has_magic buf m /\ (forall j, (j < m)%nat -> ~ has_magic buf j) /\
  (m + HEADER_SIZE <= List.length buf)%nat.

Lemma load_binary_ok_iff : forall buf,
  (exists fw, load_binary buf = inr fw) <-> exists m, first_header_at buf m.
Proof.
  intros buf. unfold load_binary, first_header_at.
  destruct (scan_magic 52 buf 0) as [m|] eqn:Hs.
  - pose proof (proj1 (scan_magic_spec 52 buf 0 m ltac:(lia)) Hs) as [Hm [Hmag Hfirst]].
    rewrite length_skipn.
    destruct (Nat.ltb_spec (List.length buf - m) HEADER_SIZE) as [Hlt|Hge].
    + split; [intros [fw Hfw]; discriminate|].
      intros [m' [Hm' [Hmag' [Hfirst' Hlen']]]].
      assert (m' = m).
      { destruct (Nat.lt_total m' m) as [Hl|[Hl|Hl]]; auto.
        - exfalso. apply (Hfirst m'); [lia|exact Hmag'].
        - exfalso. apply (Hfirst' m); [lia|exact Hmag]. }
      subst m'. unfold HEADER_SIZE in *. lia.
    + split.
      * intros _. exists m. split; [lia|]. split; [exact Hmag|].
        split; [intros j Hj; apply Hfirst; lia|unfold HEADER_SIZE in *; lia].
      * intros _. eexists. reflexivity.
  - split; [intros [fw Hfw]; discriminate|].
    intros [m [Hm [Hmag [Hfirst _]]]].
    assert (Hsc : scan_magic 52 buf 0 = Some m).
    { apply scan_magic_spec; [lia|]. repeat split; auto; try lia.
      intros j Hj. apply Hfirst. lia. }
    congruence.
Qed.

(** A buffer of [k] zero bytes, the magic, and [tail] more zero bytes. *)
Definition magic_at (k tail : nat) : list Z := repeat 0 k ++ HEADER_MAGIC ++ repeat 0 tail.

Definition is_ok (r : FirmwareLoadError + Firmware) : bool :=
  match r with inr _ => true | inl _ => false end.

(** C5 (as amended). [load_binary] succeeds exactly when the magic
    32 54 CD AB first occurs at an offset [m] with [m <= 50] (the 51 offsets
    0..=50 are scanned) and at least 256 bytes remain from [m]; any failure
    is [NotValid]. Magic at offset 0, 49 or 50 parses; at 51 or absent it
    fails; with fewer than 256 bytes from the magic it fails. *)
Theorem load_binary_header_window :
  (forall buf,
     ((exists fw, load_binary buf = inr fw) <-> exists m, first_header_at buf m) /\
     (forall e, load_binary buf = inl e -> e = NotValid "Could not find header magic")) /\
  is_ok (load_binary (magic_at 0 252)) = true /\
  is_ok (load_binary (magic_at 49 252)) = true /\
  is_ok (load_binary (magic_at 50 252)) = true /\
  is_ok (load_binary (magic_at 51 252)) = false /\
  is_ok (load_binary (repeat 0 400)) = false /\
  is_ok (load_binary (magic_at 0 251)) = false.
Proof.
  split; [|repeat split; vm_compute; reflexivity].
  intros buf. split; [apply load_binary_ok_iff|].
  intros e. unfold load_binary.
  destruct (scan_magic 52 buf 0); [destruct (Nat.ltb _ _)|]; congruence.
Qed.

Lemma no_magic_below : forall buf n,
  forallb (fun m => negb (list_Z_eqb (firstn 4 (skipn m buf)) HEADER_MAGIC)) (seq 0 n) = true ->
  forall m, (m < n)%nat -> ~ has_magic buf m.
Proof.
  intros buf n Hb m Hm Hmag.
  rewrite forallb_forall in Hb.
  specialize (Hb m ltac:(apply in_seq; lia)).
  unfold has_magic in Hmag. rewrite <- list_Z_eqb_spec in Hmag.
  rewrite Hmag in Hb. discriminate.
Qed.

(** C5 counterexample. With the magic at offset 50 (not among the first 50
    offsets 0..49) and 256 bytes from it, [load_binary] succeeds, so success
    is not "magic within the first 50 scanned offsets". *)
Lemma load_binary_accepts_offset_50 :
  ~ (forall buf,
       (exists fw, load_binary buf = inr fw) <->
       exists m, (m < 50)%nat /\ has_magic buf m /\ (forall j, (j < m)%nat -> ~ has_magic buf j) /\
                 (m + HEADER_SIZE <= List.length buf)%nat).
Proof.
  intros H.
  destruct (proj1 (H (magic_at 50 252)) (ex_intro _ _ eq_refl)) as [m [Hm [Hmag _]]].
  refine (no_magic_below (magic_at 50 252) 50 _ m Hm Hmag).
  vm_compute. reflexivity.
Qed.

End FirmwareProps.

Arguments Diag.Nag52Diag : clear implicits.
Arguments Diag.info {Session} _.
Arguments Diag.endpoint {Session} _.
Arguments Diag.endpoint_type {Session} _.
Arguments Diag.server {Session} _.
Arguments Diag.log_receiver {Session} _.
Arguments Diag.new {Channel Session} Kwp2000Protocol_default create_iso_tp_channel new_over_iso_tp hw.
Arguments Diag.try_reconnect {Channel Session} Kwp2000Protocol_default create_iso_tp_channel
  new_over_iso_tp open_device_by_name self.
Arguments Diag.with_kwp {Session S X} self kwp_fn s.
Arguments Diag.query_ecu_data {Session S} read_daimler_identification self s.

(* ------------------------------------------------------------------ *)
(** ** The diagnostic session *)

Module DiagProps.
Import Diag.

Section Lib.

Variable Channel Session : Type.
Variable Kwp2000Protocol_default : Kwp2000Protocol.
Variable create_iso_tp_channel : AdapterHw -> HardwareError + Channel.
Variable new_over_iso_tp :
  Kwp2000Protocol -> Channel -> IsoTPSettings -> DiagServerBasicOptions ->
  option DiagServerAdvancedOptions -> DiagError + Session.
Variable open_device_by_name : AdapterType -> HardwareInfo -> HardwareError + Device.

Abbreviation new := (Diag.new Kwp2000Protocol_default create_iso_tp_channel new_over_iso_tp).
Abbreviation try_reconnect :=
  (Diag.try_reconnect Kwp2000Protocol_default create_iso_tp_channel new_over_iso_tp open_device_by_name).

Lemma with_kwp_closed : forall S X (self : Nag52Diag Session)
    (f : Session -> S -> (DiagError + X) * S) s,
  server self = None -> with_kwp self f s = (inl (DiagHardwareError DeviceNotOpen), s).
Proof. intros S X self f s H. unfold with_kwp. rewrite H. reflexivity. Qed.

Lemma try_reconnect_err_torn_down : forall self e self',
  try_reconnect self = (inl e, self') -> server self' = None.
Proof.
  intros self e self'. unfold Diag.try_reconnect.
  destruct (AdapterHw_try_connect _ _ _) as [he|dev]; [intros H; injection H as _ <-; reflexivity|].
  destruct (Diag.new _ _ _ dev); intros H; [injection H as _ <-; reflexivity|discriminate].
Qed.

Lemma new_server : forall hw d, new hw = inr d -> exists k, server d = Some k.
Proof.
  intros hw d. unfold Diag.new.
  destruct (create_iso_tp_channel hw); [discriminate|].
  destruct (new_over_iso_tp _ _ _ _ _); [discriminate|].
  intros H. injection H as <-. eexists. reflexivity.
Qed.

Lemma try_reconnect_ok_open : forall self u self',
  try_reconnect self = (inr u, self') -> exists k, server self' = Some k.
Proof.
  intros self u self'. unfold Diag.try_reconnect.
  destruct (AdapterHw_try_connect _ _ _) as [he|dev]; [discriminate|].
  destruct (Diag.new _ _ _ dev) as [e|n] eqn:Hn; [discriminate|].
  intros H. injection H as _ <-. exact (new_server dev n Hn).
Qed.

(** C6. Once the server handle is gone (as after a [try_reconnect] that
    failed), every [with_kwp] call returns "device not open" and leaves the
    closure's state untouched, whatever the closure; after a [try_reconnect]
    that returns [Ok], [with_kwp] runs the closure on the new session, so an
    identity query answered by the ECU succeeds. *)
Theorem with_kwp_reconnect :
  (forall S X (self : Nag52Diag Session) (f : Session -> S -> (DiagError + X) * S) s,
     server self = None -> with_kwp self f s = (inl (DiagHardwareError DeviceNotOpen), s)) /\
  (forall self e self' S X (f : Session -> S -> (DiagError + X) * S) s,
     try_reconnect self = (inl e, self') ->
     with_kwp self' f s = (inl (DiagHardwareError DeviceNotOpen), s)) /\
  (forall self self',
     try_reconnect self = (inr tt, self') ->
     exists k, server self' = Some k /\
       (forall S X (f : Session -> S -> (DiagError + X) * S) s, with_kwp self' f s = f k s) /\
       (forall S (read_ident : Session -> S -> (DiagError + Ident.DaimlerEcuIdent) * S) s ident s1,
          read_ident k s = (inr ident, s1) ->
          query_ecu_data read_ident self' s = (inr (Ident.ident_data_of ident), s1))).
Proof.
  split; [exact with_kwp_closed|]. split.
  - intros self e self' S X f s H. apply with_kwp_closed.
    exact (try_reconnect_err_torn_down self e self' H).
  - intros self self' H. destruct (try_reconnect_ok_open self tt self' H) as [k Hk].
    exists k. split; [exact Hk|]. split.
    + intros S X f s. unfold with_kwp. rewrite Hk. reflexivity.
    + intros S read_ident s ident s1 Hr. unfold query_ecu_data, with_kwp.
      rewrite Hk, Hr. reflexivity.
Qed.

(** C7. Whenever [Nag52Diag::new] opens a session, it has built it with
    ids 0x07E1 / 0x07E9, 10000 ms read and write timeouts, tester-present
    every 2000 ms with a response required, the session mode 0x93
    registered, and ISO-TP block size / st_min 8 / 0x20 on SocketCAN and
    0 / 0 on USB and Pass-Thru. *)
Theorem nag52_new_config : forall hw d,
  new hw = inr d ->
  exists ch k P cfg bo ao,
    create_iso_tp_channel hw = inr ch /\
    new_over_iso_tp P ch cfg bo (Some ao) = inr k /\
    server d = Some k /\
    send_id bo = 0x07E1 /\ recv_id bo = 0x07E9 /\
    read_timeout_ms (timeout_cfg bo) = 10000 /\ write_timeout_ms (timeout_cfg bo) = 10000 /\
    tester_present_interval_ms ao = 2000 /\ tester_present_require_response ao = true /\
    In {| mode_id := 0x93; tp_require := true; mode_name := "UN52DevMode" |} (session_modes P) /\
    (block_size cfg, st_min cfg) =
      match hw with
      | SocketCAN _ => (8, 0x20)
      | Usb _ | Passthru _ => (0, 0)
      end.
Proof.
  intros hw d. unfold Diag.new.
  destruct (create_iso_tp_channel hw) as [e|ch] eqn:Hch; [discriminate|].
  destruct (new_over_iso_tp _ _ _ _ _) as [e|k] eqn:Hk; [discriminate|].
  intros H. injection H as <-.
  exists ch, k, (protocol Kwp2000Protocol_default), (channel_cfg hw), basic_opts, adv_opts.
  do 3 (split; [first [reflexivity | exact Hk]|]).
  repeat (split; [reflexivity|]).
  split.
  - unfold protocol, register_session_type. simpl. apply in_or_app. right. left. reflexivity.
  - destruct hw; reflexivity.
Qed.

End Lib.

(** The library instantiated with sessions recording how they were
    configured, and a SocketCAN device found again by name. *)
Definition demo_create (hw : AdapterHw) : HardwareError + unit := inr tt.
Definition demo_new_over_iso_tp (p : Kwp2000Protocol) (ch : unit) (cfg : IsoTPSettings)
    (bo : DiagServerBasicOptions) (ao : option DiagServerAdvancedOptions) : DiagError + IsoTPSettings :=
  inr cfg.
Definition demo_open (ty : AdapterType) (i : HardwareInfo) : HardwareError + Device :=
  inr {| dev_info := i |}.
Definition demo_can : AdapterHw := SocketCAN {| dev_info := {| hw_name := "can0" |} |}.
Definition demo_default : Kwp2000Protocol := {| session_modes := [] |}.

Definition demo_torn : Nag52Diag IsoTPSettings :=
  {| info := {| hw_name := "can0" |}; endpoint := None; endpoint_type := AT_SocketCAN;
     server := None; log_receiver := false |}.

Definition demo_ident : Ident.DaimlerEcuIdent :=
  {| Ident.diag_info_id := 0x0251; Ident.ecu_production_day := 0x15; Ident.ecu_production_month := 0x06;
     Ident.ecu_production_year := 0x22; Ident.ecu_hw_build_week := 0x27; Ident.ecu_hw_build_year := 0x22;
     Ident.ecu_sw_build_week := 0x10; Ident.ecu_sw_build_year := 0x23 |}.

(** C6 witness: a torn-down value rejects a closure; [try_reconnect] finds
    the SocketCAN device again and an identity query then succeeds. *)
Lemma with_kwp_reconnect_witness :
  with_kwp demo_torn (fun _ (s : nat) => (inr 1, S s)) 0%nat = (inl (DiagHardwareError DeviceNotOpen), 0%nat) /\
  exists self',
    try_reconnect demo_default demo_create demo_new_over_iso_tp demo_open demo_torn = (inr tt, self') /\
    query_ecu_data (fun _ (s : unit) => (inr demo_ident, s)) self' tt = (inr (Ident.ident_data_of demo_ident), tt).
Proof.
  pose proof (with_kwp_reconnect unit IsoTPSettings demo_default demo_create demo_new_over_iso_tp demo_open)
    as [H1 [_ H3]].
  split; [apply H1; reflexivity|].
  eexists. split; [reflexivity|].
  destruct (H3 demo_torn _ eq_refl) as [k [_ [_ Hq]]].
  apply Hq. reflexivity.
Defined.

(** C7 witness: [new] on a SocketCAN adapter. *)
Lemma nag52_new_config_witness :
  exists d, Diag.new demo_default demo_create demo_new_over_iso_tp demo_can = inr d /\
  exists ch k P cfg bo ao,
    demo_create demo_can = inr ch /\
    demo_new_over_iso_tp P ch cfg bo (Some ao) = inr k /\
    server d = Some k /\
    send_id bo = 0x07E1 /\ recv_id bo = 0x07E9 /\
    read_timeout_ms (timeout_cfg bo) = 10000 /\ write_timeout_ms (timeout_cfg bo) = 10000 /\
    tester_present_interval_ms ao = 2000 /\ tester_present_require_response ao = true /\
    In {| mode_id := 0x93; tp_require := true; mode_name := "UN52DevMode" |} (session_modes P) /\
    (block_size cfg, st_min cfg) = (8, 0x20).
Proof.
  eexists. split; [reflexivity|].
  exact (nag52_new_config unit IsoTPSettings demo_default demo_create demo_new_over_iso_tp
           demo_can _ eq_refl).
Defined.

End DiagProps.

(* ------------------------------------------------------------------ *)
(** ** Settings codec *)

Module SettingsProps.
Import Settings.

Lemma le_encode_length : forall w x, List.length (le_encode w x) = w.
Proof. induction w as [|w IH]; intros x; simpl; [reflexivity|]. rewrite IH. reflexivity. Qed.

Lemma le_decode_encode : forall w x, 0 <= x < 256 ^ Z.of_nat w -> Firmware.le_decode (le_encode w x) = x.
Proof.
  induction w as [|w IH]; intros x Hx; cbn [le_encode Firmware.le_decode].
  - simpl in Hx. lia.
  - rewrite Nat2Z.inj_succ, Z.pow_succ_r in Hx by lia.
    rewrite IH.
    + pose proof (Z.div_mod x 256 ltac:(lia)). lia.
    + split; [apply Z.div_pos; lia|]. apply Z.div_lt_upper_bound; lia.
Qed.

Lemma pack_fields_length : forall ws v,
  valid_fields ws v -> List.length (pack_fields ws v) = fold_right plus O ws.
Proof.
  induction ws as [|w ws IH]; destruct v as [|x v]; simpl; try tauto.
  intros [_ Hv]. rewrite length_app, le_encode_length, IH by exact Hv. reflexivity.
Qed.

Lemma unpack_pack_fields : forall ws v,
  valid_fields ws v -> unpack_fields ws (pack_fields ws v) = v.
Proof.
  induction ws as [|w ws IH]; destruct v as [|x v]; simpl; try tauto.
  intros [Hx Hv].
  rewrite firstn_app, skipn_app, le_encode_length, Nat.sub_diag, firstn_O, app_nil_r.
  rewrite firstn_all2 by (rewrite le_encode_length; lia).
  rewrite skipn_all2 by (rewrite le_encode_length; lia).
  simpl. rewrite le_decode_encode by exact Hx. rewrite IH by exact Hv. reflexivity.
Qed.

(** C2 (spec-modelled codec). For every settings type [T], SCN id and
    valid value [v] of [T], unpacking the packed bytes gives [v] back. *)
Theorem unpack_pack_settings : forall T id v,
  valid T v -> unpack_settings T id (pack_settings T id v) = inr v.
Proof.
  intros T id v Hv. unfold unpack_settings, pack_settings, total_width.
  rewrite (pack_fields_length _ _ Hv), Nat.eqb_refl.
  rewrite (unpack_pack_fields _ _ Hv). reflexivity.
Qed.

(** A block of a u16, a u16, a u8 and a u32 field. *)
Definition demo_settings : TcuSettings := {| get_scn_id := 0x01; field_widths := [2; 2; 1; 4]%nat |}.

Lemma unpack_pack_settings_witness :
  valid demo_settings [1000; 65535; 7; 123456] /\
  unpack_settings demo_settings 0x01 (pack_settings demo_settings 0x01 [1000; 65535; 7; 123456])
    = inr [1000; 65535; 7; 123456].
Proof.
  assert (H : valid demo_settings [1000; 65535; 7; 123456])
    by (unfold valid; simpl; repeat split; lia).
  split; [exact H|]. apply (unpack_pack_settings demo_settings 0x01 _ H).
Defined.

End SettingsProps.

(* ------------------------------------------------------------------ *)
(** ** The coredump transfer *)

Module TransferProps.
Import Diag Crash Ecu.

Lemma ceil_div_pos : forall L b, (0 < b)%nat -> (0 < L)%nat ->
  ceil_div L b = S ((L - 1) / b).
Proof.
  intros L b Hb HL. unfold ceil_div.
  replace (L + b - 1)%nat with (1 * b + (L - 1))%nat by lia.
  rewrite Nat.div_add_l by lia. reflexivity.
Qed.

Lemma ceil_div_step : forall L b, (0 < b)%nat -> (0 < L)%nat ->
  ceil_div L b = S (ceil_div (L - b) b).
Proof.
  intros L b Hb HL. rewrite ceil_div_pos by lia. f_equal.
  destruct (Nat.le_gt_cases b L) as [Hge|Hlt].
  - unfold ceil_div. f_equal. lia.
  - unfold ceil_div. replace (L - b)%nat with O by lia.
    rewrite !Nat.div_small by lia. reflexivity.
Qed.

Lemma ceil_div_zero : forall b, (0 < b)%nat -> ceil_div 0 b = O.
Proof. intros b Hb. unfold ceil_div. apply Nat.div_small. lia. Qed.

(** The block size of the request-upload response [[_; hi; lo]]. *)
Lemma block_size_bytes : forall B, 0 <= B < 65536 ->
  Z.lor (Z.shiftl (B / 256) 8) (B mod 256) = B.
Proof.
  intros B HB.
  change 256 with (2 ^ 8).
  rewrite <- Z.shiftr_div_pow2 by lia.
  rewrite <- Z.land_ones by lia.
  apply Z.bits_inj'. intros n Hn.
  rewrite Z.lor_spec, Z.land_spec.
  destruct (Z.lt_ge_cases n 8) as [Hlt|Hge].
  - rewrite Z.shiftl_spec_low by lia. rewrite Z.ones_spec_low by lia.
    rewrite andb_true_r. reflexivity.
  - rewrite Z.shiftl_spec by lia. rewrite Z.shiftr_spec by lia.
    rewrite Z.ones_spec_high by lia. rewrite andb_false_r, orb_false_r.
    f_equal. lia.
Qed.

Lemma le_u32_decode : forall v, 0 <= v < 2 ^ 32 -> Firmware.le_decode (le_u32 v) = v.
Proof.
  intros v Hv. apply SettingsProps.le_decode_encode. exact Hv.
Qed.

Definition upload_req (address size : Z) : list Z :=
  [0x35; 0x31;
   as_u8 (Z.shiftr address 16); as_u8 (Z.shiftr address 8); as_u8 address;
   as_u8 (Z.shiftr size 16); as_u8 (Z.shiftr size 8); as_u8 size].

Definition sent_to {St} (w : World St) (st : St) (reqs : list Req) : World St :=
  {| w_ecu := st; w_sent := w_sent w ++ reqs; w_state := w_state w;
     w_published := w_published w; w_files := w_files w |}.

(** [init_flash_mode] against an ECU holding a non-empty dump. *)
Lemma init_flash_mode_dump : forall address B size (w : World (list Z)),
  0 <= address < 2 ^ 32 -> 0 < size < 2 ^ 32 -> 0 <= B < 65536 ->
  init_flash_mode (dump_ecu address B size) w =
  (ROk (address, size, B),
   sent_to w (w_ecu w) [ReqSetSession SESSION_REPROGRAMMING; ReqReadLocalId 0x24;
                        ReqRaw (upload_req address size)]).
Proof.
  intros address B size w Ha Hs HB.
  unfold init_flash_mode, bind, exchange. cbn [dump_ecu Z.eqb Pos.eqb].
  assert (Hl : forall v, List.length (le_u32 v) = 4%nat) by (intros; apply SettingsProps.le_encode_length).
  assert (Hlen : List.length (le_u32 address ++ le_u32 size) = 8%nat)
    by (rewrite length_app, !Hl; reflexivity).
  simpl w_ecu. rewrite Hlen. cbn [Nat.eqb negb].
  assert (H1 : firstn 4 (le_u32 address) = le_u32 address)
    by (apply firstn_all2; rewrite Hl; lia).
  assert (H2 : firstn 4 (skipn 4 (le_u32 address ++ le_u32 size)) = le_u32 size).
  { rewrite skipn_app, Hl, skipn_all2 by (rewrite Hl; lia).
    rewrite Nat.sub_diag, skipn_O. apply firstn_all2. rewrite Hl. lia. }
  unfold Firmware.slice. cbn [Nat.sub]. rewrite skipn_O.
  rewrite firstn_app, Hl, Nat.sub_diag, firstn_O, app_nil_r, H1, H2.
  rewrite !le_u32_decode by lia.
  replace (size =? 0) with false by (symmetry; apply Z.eqb_neq; lia).
  cbn [dump_ecu Z.eqb Pos.eqb List.length Nat.eqb negb nth].
  unfold ret. rewrite block_size_bytes by exact HB.
  unfold sent_to. simpl. rewrite <- !app_assoc. reflexivity.
Qed.

(** The states published by transfer-data requests [j .. j+n-1] of a
    transfer of [total] bytes in blocks of [b] bytes, [bc] being the
    [block_count] of the code. *)
Definition blocks_published (bc : Z) (b total j n : nat) : list ReadState :=
  map (fun k => ReadingBlock (Z.of_nat k + 1) bc (Z.of_nat (Nat.min (k * b) total))) (seq j n).

(** One turn of the [while] loop against the ECU model. *)
Lemma read_blocks_step : forall address B size bc fuel data j (w : World (list Z)),
  Z.of_nat (List.length data) < size ->
  read_blocks (dump_ecu address B size) (S fuel) size bc data (Z.of_nat j) w =
  read_blocks (dump_ecu address B size) fuel size bc (data ++ firstn (Z.to_nat B) (w_ecu w)) (Z.of_nat (S j))
    {| w_ecu := skipn (Z.to_nat B) (w_ecu w);
       w_sent := w_sent w ++ [ReqRaw [0x36; as_u8 (Z.of_nat (S j))]];
       w_state := ReadingBlock (Z.of_nat (S j) + 1) bc
                    (Z.of_nat (List.length (data ++ firstn (Z.to_nat B) (w_ecu w))));
       w_published := w_published w ++
         [ReadingBlock (Z.of_nat (S j) + 1) bc
            (Z.of_nat (List.length (data ++ firstn (Z.to_nat B) (w_ecu w))))];
       w_files := w_files w |}.
Proof.
  intros address B size bc fuel data j w Hlt.
  cbn [read_blocks]. rewrite (proj2 (Z.ltb_lt _ _) Hlt).
  rewrite Nat2Z.inj_succ, <- Z.add_1_r.
  unfold try_m, exchange. cbn [dump_ecu Z.eqb Pos.eqb nth].
  unfold bind, slice_from. cbn [List.length Nat.ltb Nat.leb skipn].
  unfold ret, publish. simpl. reflexivity.
Qed.

Lemma read_blocks_dump : forall address B bc fuel data rem j total (w : World (list Z)),
  0 < B ->
  w_ecu w = rem ->
  total = (List.length data + List.length rem)%nat ->
  (rem = [] \/ List.length data = (j * Z.to_nat B)%nat) ->
  (ceil_div (List.length rem) (Z.to_nat B) < fuel)%nat ->
  let r := read_blocks (dump_ecu address B (Z.of_nat total)) fuel (Z.of_nat total) bc data (Z.of_nat j) w in
  fst r = ROk (Some (data ++ rem)) /\
  w_ecu (snd r) = [] /\
  w_sent (snd r) = w_sent w ++ transfer_reqs (S j) (ceil_div (List.length rem) (Z.to_nat B)) /\
  w_published (snd r) =
    w_published w ++ blocks_published bc (Z.to_nat B) total (S j) (ceil_div (List.length rem) (Z.to_nat B)) /\
  w_files (snd r) = w_files w.
Proof.
  intros address B bc fuel. induction fuel as [|fuel IH];
    intros data rem j total w HB Hw Htot Hinv Hfuel; [lia|].
  assert (Hb : (0 < Z.to_nat B)%nat) by lia.
  destruct rem as [|x rem0].
  - (* the loop condition fails: the loop ends *)
    cbn zeta. cbn [read_blocks].
    replace (Z.of_nat (List.length data) <? Z.of_nat total) with false
      by (symmetry; apply Z.ltb_ge; simpl in Htot; lia).
    cbn [List.length]. rewrite ceil_div_zero by exact Hb.
    simpl. rewrite !app_nil_r. auto.
  - cbn zeta. rewrite read_blocks_step by (simpl in Htot; lia).
    rewrite Hw.
    set (b := Z.to_nat B) in *.
    set (rem' := skipn b (x :: rem0)).
    set (data' := data ++ firstn b (x :: rem0)).
    assert (Hsplit : data' ++ rem' = data ++ x :: rem0)
      by (unfold data', rem'; rewrite <- app_assoc, firstn_skipn; reflexivity).
    assert (Hn : ceil_div (List.length (x :: rem0)) b = S (ceil_div (List.length rem') b)).
    { unfold rem'. rewrite length_skipn. apply ceil_div_step; simpl; lia. }
    assert (Hlen' : List.length data' = Nat.min (S j * b) total).
    { unfold data'. rewrite length_app, length_firstn.
      destruct Hinv as [Hinv|Hinv]; [discriminate|].
      rewrite Htot. simpl (List.length (x :: rem0)). lia. }
    lazymatch goal with
    | |- context [read_blocks _ fuel _ _ _ _ ?W2] =>
        edestruct (IH data' rem' (S j) total W2) as [Hr [He [Hs [Hp Hf]]]];
          [exact HB | reflexivity | | | |]
    end.
    + rewrite Htot, <- (length_app data' rem'), Hsplit, length_app. reflexivity.
    + destruct (Nat.le_gt_cases b (List.length (x :: rem0))) as [Hge|Hlt].
      * right. rewrite Hlen'. rewrite Htot.
        destruct Hinv as [Hinv|Hinv]; [discriminate|]. lia.
      * left. unfold rem'. apply skipn_all2. lia.
    + rewrite Hn in Hfuel. lia.
    + rewrite Hr, Hsplit, He, Hs, Hp, Hf, Hn. simpl.
      rewrite <- !app_assoc. cbn [app].
      repeat split; try reflexivity.
      unfold blocks_published. cbn [seq map]. rewrite Hlen'. reflexivity.
Qed.

(** The whole coredump thread against an ECU holding a non-empty [dump]
    with block size [B]. *)
Lemma crash_read_dump : forall B dump create_ok fuel save,
  0 < B < 65536 -> (0 < List.length dump)%nat -> Z.of_nat (List.length dump) < 2 ^ 24 ->
  (ceil_div (List.length dump) (Z.to_nat B) < fuel)%nat ->
  let n := ceil_div (List.length dump) (Z.to_nat B) in
  let size := Z.of_nat (List.length dump) in
  let path := (save ++ "/dump.elf")%string in
  let ok := create_ok path && negb (Nat.ltb (List.length dump) 20) in
  let r := crash_read (ecu_of B dump) create_ok fuel save (init_world dump) in
  w_sent (snd r) =
    [ReqSetSession SESSION_REPROGRAMMING; ReqReadLocalId 0x24; ReqRaw (upload_req 0x3C0000 size)]
    ++ transfer_reqs 1 n ++ [ReqRaw [0x37]] /\
  w_published (snd r) =
    [Prepare] ++ blocks_published (size / B) (Z.to_nat B) (List.length dump) 1 n ++
    (if ok then [Completed] else []) /\
  fst r = (if ok then ROk tt else RPanic) /\
  w_files (snd r) =
    (if create_ok path then
       (path, []) :: (if Nat.ltb (List.length dump) 20 then [] else [(path, skipn 20 dump)])
     else []).
Proof.
  intros B dump create_ok fuel save HB Hpos Hsmall Hfuel. cbn zeta.
  remember (crash_read (ecu_of B dump) create_ok fuel save (init_world dump)) as r eqn:Er.
  unfold crash_read, ecu_of in Er.
  unfold bind at 1, publish at 1 in Er. unfold try_m in Er. cbn [w_ecu init_world] in Er.
  rewrite init_flash_mode_dump in Er by lia.
  replace (Z.of_nat (List.length dump) =? 0) with false in Er by (symmetry; apply Z.eqb_neq; lia).
  unfold bind at 1, div_u32 in Er. replace (B =? 0) with false in Er by (symmetry; apply Z.eqb_neq; lia).
  unfold ret at 1 in Er. unfold bind at 1 in Er.
  match type of Er with
  | context [read_blocks ?E fuel ?S ?BC [] 0 ?W] =>
      destruct (read_blocks_dump 0x3C0000 B BC fuel [] dump 0 (List.length dump) W)
        as [Hr [He [Hs [Hp Hf]]]]; [lia | reflexivity | reflexivity | right; reflexivity | exact Hfuel |];
      change (Z.of_nat 0) with 0 in Hr, He, Hs, Hp, Hf;
      destruct (read_blocks E fuel S BC [] 0 W) as [r2 w2]
  end.
  cbn [fst snd] in *. subst r2.
  unfold bind, ignore_err, try_m, on_flash_end, bind, exchange in Er.
  rewrite He in Er. cbn [dump_ecu Z.eqb Pos.eqb] in Er.
  unfold create_file, slice_from in Er.
  simpl in Hs, Hp, Hf. rewrite app_nil_l in Er.
  destruct (create_ok (save ++ "/dump.elf")%string) eqn:Ec; cbn [andb].
  - destruct (Nat.ltb_spec (List.length dump) 20) as [Hlt|Hge]; cbn [negb].
    + unfold panic in Er. subst r. simpl. rewrite Hs, Hp, Hf. simpl. rewrite app_nil_r. auto.
    + unfold ret, write_file, publish in Er. subst r. simpl. rewrite Hs, Hp, Hf. simpl.
      repeat split; reflexivity.
  - subst r. simpl. rewrite Hs, Hp, Hf. simpl. rewrite app_nil_r. auto.
Qed.

Lemma transfer_reqs_mod : forall j n,
  transfer_reqs j n = map (fun k => ReqRaw [0x36; Z.of_nat k mod 256]) (seq j n).
Proof.
  intros j n. unfold transfer_reqs, as_u8. apply map_ext. intros k.
  change 255 with (Z.ones 8). rewrite Z.land_ones by lia. reflexivity.
Qed.

(** A coredump of 1000 bytes. *)
Definition dump1000 : list Z := map (fun k => Z.of_nat k mod 256) (seq 0 1000).

Lemma read_blocks_loop_dump : forall B dump fuel bc (w : World (list Z)),
  0 < B -> w_ecu w = dump ->
  (ceil_div (List.length dump) (Z.to_nat B) < fuel)%nat ->
  let size := Z.of_nat (List.length dump) in
  let r := read_blocks (ecu_of B dump) fuel size bc [] 0 w in
  fst r = ROk (Some dump) /\
  w_sent (snd r) = w_sent w ++ transfer_reqs 1 (ceil_div (List.length dump) (Z.to_nat B)).
Proof.
  intros B dump fuel bc w HB Hw Hf. cbn zeta. unfold ecu_of.
  destruct (read_blocks_dump 0x3C0000 B bc fuel [] dump 0 (List.length dump) w)
    as [Hr [_ [Hs _]]]; [exact HB | exact Hw | reflexivity | right; reflexivity | exact Hf |].
  split; [exact Hr | exact Hs].
Qed.

(** C3. Against an ECU that reports [totalSize] S and grants block size B,
    answering each transfer-data request with its 2-byte echo header and the
    next block of the dump (the last one carrying what remains):
    - S = 0: the thread sends no transfer-data request, accumulates and
      writes nothing, and ends [Completed];
    - S > 0: the loop sends exactly ceil(S/B) transfer-data requests, the
      k-th carrying k mod 256, stops with the S bytes of the dump
      accumulated, and only then comes the transfer-exit 0x37;
    - S = 1000, B = 256: 4 transfer-data requests, 1000 bytes.
    This holds whether or not the dump file can be created. *)
Theorem coredump_transfer_blocks :
  (forall B create_ok fuel save,
     crash_read (ecu_of B []) create_ok fuel save (init_world []) =
     (ROk tt, {| w_ecu := []; w_sent := [ReqSetSession SESSION_REPROGRAMMING; ReqReadLocalId 0x24];
                 w_state := Completed; w_published := [Prepare; Completed; Completed];
                 w_files := [] |})) /\
  (forall B dump create_ok fuel save,
     0 < B < 65536 -> (0 < List.length dump)%nat -> Z.of_nat (List.length dump) < 2 ^ 24 ->
     (ceil_div (List.length dump) (Z.to_nat B) < fuel)%nat ->
     let n := ceil_div (List.length dump) (Z.to_nat B) in
     let size := Z.of_nat (List.length dump) in
     (forall bc (w : World (list Z)), w_ecu w = dump ->
        fst (read_blocks (ecu_of B dump) fuel size bc [] 0 w) = ROk (Some dump) /\
        w_sent (snd (read_blocks (ecu_of B dump) fuel size bc [] 0 w)) =
          w_sent w ++ map (fun k => ReqRaw [0x36; Z.of_nat k mod 256]) (seq 1 n)) /\
     w_sent (snd (crash_read (ecu_of B dump) create_ok fuel save (init_world dump))) =
       [ReqSetSession SESSION_REPROGRAMMING; ReqReadLocalId 0x24; ReqRaw (upload_req 0x3C0000 size)]
       ++ map (fun k => ReqRaw [0x36; Z.of_nat k mod 256]) (seq 1 n) ++ [ReqRaw [0x37]]) /\
  ceil_div 1000 256 = 4%nat /\
  (forall create_ok,
     List.length (filter is_transfer_req
                    (w_sent (snd (crash_read (ecu_of 256 dump1000) create_ok 5 "" (init_world dump1000)))))
     = 4%nat) /\
  fst (read_blocks (ecu_of 256 dump1000) 5 1000 3 [] 0 (init_world dump1000)) = ROk (Some dump1000) /\
  List.length dump1000 = 1000%nat.
Proof.
  split; [intros; reflexivity|].
  split.
  - intros B dump create_ok fuel save HB Hpos Hsmall Hf. cbn zeta.
    split.
    + intros bc w Hw. rewrite <- transfer_reqs_mod.
      apply read_blocks_loop_dump; [lia | exact Hw | exact Hf].
    + rewrite <- transfer_reqs_mod.
      exact (proj1 (crash_read_dump B dump create_ok fuel save HB Hpos Hsmall Hf)).
  - split; [vm_compute; reflexivity|].
    split; [|split; vm_compute; reflexivity].
    intros create_ok.
    assert (Hl : List.length dump1000 = 1000%nat) by (vm_compute; reflexivity).
    destruct (crash_read_dump 256 dump1000 create_ok 5 "" ltac:(lia) ltac:(rewrite Hl; lia)
                ltac:(rewrite Hl; lia) ltac:(rewrite Hl; vm_compute; lia)) as [Hs _].
    cbn zeta in Hs. rewrite Hs. vm_compute. reflexivity.
Qed.

(** C4 (code_bug). The progress states the thread publishes carry
    [out_of = S / B] rounded down (the [block_count] of the code), not
    ceil(S/B), and the identifier [id] of the k-th block is k + 1. With
    S = 1000 and B = 256 the thread publishes [out_of = 3] while it reads
    ceil(1000/256) = 4 blocks. *)
Theorem coredump_progress_block_count :
  (forall B dump create_ok fuel save,
     0 < B < 65536 -> (0 < List.length dump)%nat -> Z.of_nat (List.length dump) < 2 ^ 24 ->
     (ceil_div (List.length dump) (Z.to_nat B) < fuel)%nat ->
     forall id out_of bytes_written,
       In (ReadingBlock id out_of bytes_written)
          (w_published (snd (crash_read (ecu_of B dump) create_ok fuel save (init_world dump)))) ->
       out_of = Z.of_nat (List.length dump) / B) /\
  (forall create_ok, create_ok "/dump.elf"%string = true ->
     w_published (snd (crash_read (ecu_of 256 dump1000) create_ok 5 "" (init_world dump1000))) =
       [Prepare; ReadingBlock 2 3 256; ReadingBlock 3 3 512; ReadingBlock 4 3 768;
        ReadingBlock 5 3 1000; Completed]) /\
  ceil_div 1000 256 = 4%nat.
Proof.
  split; [|split; [|vm_compute; reflexivity]].
  2:{ intros create_ok Hc.
      assert (Hl : List.length dump1000 = 1000%nat) by (vm_compute; reflexivity).
      destruct (crash_read_dump 256 dump1000 create_ok 5 "" ltac:(lia) ltac:(rewrite Hl; lia)
                  ltac:(rewrite Hl; lia) ltac:(rewrite Hl; vm_compute; lia)) as [_ [Hp _]].
      cbn zeta in Hp. rewrite Hp. simpl append. rewrite Hc. vm_compute. reflexivity. }
  intros B dump create_ok fuel save HB Hpos Hsmall Hf id out_of bytes_written Hin.
  destruct (crash_read_dump B dump create_ok fuel save HB Hpos Hsmall Hf) as [_ [Hp _]].
  cbn zeta in Hp. rewrite Hp in Hin.
  apply in_app_or in Hin as [Hin|Hin]; [destruct Hin as [Hin|[]]; discriminate|].
  apply in_app_or in Hin as [Hin|Hin].
  - unfold blocks_published in Hin. apply in_map_iff in Hin as [k [Hk _]].
    injection Hk as _ <- _. reflexivity.
  - destruct (_ && _) in Hin; [destruct Hin as [Hin|[]]; discriminate|destruct Hin].
Qed.

End TransferProps.

(* ------------------------------------------------------------------ *)
(** ** Partiality of the chunked read *)

Module PanicProps.
Import Diag Crash Ecu TransferProps.

Lemma slice_from_panics : forall St n p (w : World St),
  (fst (slice_from St n p w) = RPanic <-> (List.length p < n)%nat) /\
  ((n <= List.length p)%nat -> slice_from St n p w = (ROk (skipn n p), w)).
Proof.
  intros St n p w. unfold slice_from.
  destruct (Nat.ltb_spec (List.length p) n) as [H|H].
  - split; [split; [intros _; exact H | intros _; reflexivity] | intros; lia].
  - split; [split; [discriminate | intros; lia] | intros; reflexivity].
Qed.

(** The loop never panics when every response of the ECU is at least two
    bytes long. *)
Lemma read_blocks_no_panic : forall St (ecu : St -> Req -> (DiagError + list Z) * St),
  (forall st r p st', ecu st r = (inr p, st') -> (2 <= List.length p)%nat) ->
  forall fuel size bc data i w, fst (read_blocks ecu fuel size bc data i w) <> RPanic.
Proof.
  intros St ecu Hecu fuel. induction fuel as [|fuel IH]; intros size bc data i w; cbn [read_blocks].
  - discriminate.
  - destruct (Z.of_nat (List.length data) <? size); [|discriminate].
    unfold try_m, exchange.
    destruct (ecu (w_ecu w) _) as [[e|p] st'] eqn:E.
    + unfold bind, publish, ret. discriminate.
    + pose proof (Hecu _ _ _ _ E) as Hp.
      unfold bind at 1. rewrite (proj2 (slice_from_panics _ 2 p _) Hp).
      unfold bind, publish. apply IH.
Qed.

(** An ECU whose transfer-data answer lacks the echo header. *)
Definition short_ecu (st : unit) (r : Req) : (DiagError + list Z) * unit := (inr [0x76], st).

(** C10. The pipeline of the chunked read is partial: stripping the 2-byte
    header of a transfer-data response panics exactly when it is shorter
    than 2 bytes (and the loop then panics). Once the transfer-exit is
    accepted, [on_flash_end] creates [dump.elf] and then strips 20 bytes: it
    panics exactly when the file cannot be created or fewer than 20 bytes
    were accumulated, so a conforming ECU with any size 0 < S < 20 makes the
    thread panic. [read_scn_settings] panics exactly when the ECU answers
    with fewer than 2 bytes. When every response has at least 2 bytes the
    loop never panics, and a conforming transfer of S >= 20 bytes whose file
    can be created completes. *)
Theorem chunked_read_partial :
  (forall St n p (w : World St), fst (slice_from St n p w) = RPanic <-> (List.length p < n)%nat) /\
  fst (read_blocks short_ecu 3 10 1 [] 0 (init_world tt)) = RPanic /\
  (forall St (ecu : St -> Req -> (DiagError + list Z) * St),
     (forall st r p st', ecu st r = (inr p, st') -> (2 <= List.length p)%nat) ->
     forall fuel size bc data i w, fst (read_blocks ecu fuel size bc data i w) <> RPanic) /\
  (forall St (ecu : St -> Req -> (DiagError + list Z) * St) create_ok path read (w : World St),
     fst (on_flash_end ecu create_ok path read w) = RPanic <->
     (exists p st', ecu (w_ecu w) (ReqRaw [0x37]) = (inr p, st')) /\
     (create_ok (path ++ "/dump.elf")%string = false \/ (List.length read < 20)%nat)) /\
  (forall St (ecu : St -> Req -> (DiagError + list Z) * St) T (w : World St),
     fst (read_scn_settings ecu T w) = RPanic <->
     exists res st', ecu (w_ecu w) (ReqRaw [0x21; 0xFC; Settings.get_scn_id T]) = (inr res, st') /\
                     (List.length res < 2)%nat) /\
  (forall B dump create_ok fuel save,
     0 < B < 65536 -> (0 < List.length dump)%nat -> (List.length dump < 20)%nat ->
     (ceil_div (List.length dump) (Z.to_nat B) < fuel)%nat ->
     fst (crash_read (ecu_of B dump) create_ok fuel save (init_world dump)) = RPanic) /\
  (forall B dump create_ok fuel save,
     0 < B < 65536 -> (20 <= List.length dump)%nat -> Z.of_nat (List.length dump) < 2 ^ 24 ->
     (ceil_div (List.length dump) (Z.to_nat B) < fuel)%nat ->
     create_ok (save ++ "/dump.elf")%string = true ->
     fst (crash_read (ecu_of B dump) create_ok fuel save (init_world dump)) = ROk tt).
Proof.
  split; [intros; apply slice_from_panics|].
  split; [reflexivity|].
  split; [exact read_blocks_no_panic|].
  split.
  { intros St ecu create_ok path read w. unfold on_flash_end, bind, exchange, create_file.
    destruct (ecu (w_ecu w) (ReqRaw [0x37])) as [[e|p] st'] eqn:E.
    - split; [discriminate|]. intros [[p [st'' Hp]] _]. congruence.
    - cbn [fst snd]. destruct (create_ok (path ++ "/dump.elf")%string) eqn:Ec.
      + unfold slice_from, panic, ret, write_file.
        destruct (Nat.ltb_spec (List.length read) 20) as [Hl|Hl].
        * split; [intros _; split; [eauto|right; exact Hl]|reflexivity].
        * split; [discriminate|]. intros [_ [H|H]]; [discriminate|lia].
      + split; [intros _; split; [eauto|left; reflexivity]|reflexivity]. }
  split.
  { intros St ecu T w. unfold read_scn_settings, try_m, exchange.
    destruct (ecu (w_ecu w) _) as [[e|res] st'] eqn:E.
    - split; [discriminate|]. intros [res [st'' [Hr _]]]. congruence.
    - unfold bind. unfold slice_from.
      destruct (Nat.ltb_spec (List.length res) 2).
      + split; [intros _; eauto|reflexivity].
      + split; [discriminate|]. intros [res' [st'' [Hr Hl]]].
        injection Hr as <- _. lia. }
  split.
  - intros B dump create_ok fuel save HB Hpos Hl Hf.
    destruct (crash_read_dump B dump create_ok fuel save HB Hpos ltac:(lia) Hf) as [_ [_ [Hr _]]].
    cbn zeta in Hr. rewrite Hr. apply Nat.ltb_lt in Hl. rewrite Hl, andb_false_r. reflexivity.
  - intros B dump create_ok fuel save HB Hl Hsmall Hf Hc.
    destruct (crash_read_dump B dump create_ok fuel save HB ltac:(lia) Hsmall Hf) as [_ [_ [Hr _]]].
    cbn zeta in Hr. rewrite Hr, Hc. replace (Nat.ltb (List.length dump) 20) with false
      by (symmetry; apply Nat.ltb_ge; exact Hl). reflexivity.
Qed.

End PanicProps.

(* ------------------------------------------------------------------ *)
(** ** Identity display (backend/src/diag/ident.rs) *)

Module IdentDisplay.
Import Ident.

(** One upper-case hex digit, [0..9A..F], for [0 <= d < 16]. *)
Definition hex_digit (d : Z) : Ascii.ascii :=
  if d <? 10 then Ascii.ascii_of_nat (48 + Z.to_nat d)
  else Ascii.ascii_of_nat (55 + Z.to_nat d).

(** The [n] low hex digits of [x], most significant first: [{:0nX}] for an
    [x] of at most [n] significant digits. *)
Fixpoint hex_upper (n : nat) (x : Z) : string :=
  match n with
  | O => EmptyString
  | S n' => String (hex_digit ((x / 16 ^ Z.of_nat n') mod 16)) (hex_upper n' x)
  end.

(** [impl ToString for EgsMode]; the code of [Unknown] is a u16, so
    [{:08X}] always prints exactly 8 digits. *)
Definition EgsMode_to_string (m : EgsMode) : string :=
  match m with
  | EGS51 => "EGS51"
  | EGS52 => "EGS52"
  | EGS53 => "EGS53"
  | Unknown x => "Unknown(0x" ++ hex_upper 8 x ++ ")"
  end.

(** [impl ToString for PCBVersion] *)
Definition PCBVersion_to_string (v : PCBVersion) : string :=
  match v with
  | OnePointOne => "V1.1"
  | OnePointTwo => "V1.2"
  | OnePointThree => "V1.3"
  | PCB_Unknown => "V_NDEF"
  end.

(** The [u16] carried by [Unknown] is in range. *)
Definition u16_mode (m : EgsMode) : Prop :=
  match m with
  | Unknown x => 0 <= x < 65536
  | _ => True
  end.

Definition hex_val (c : Ascii.ascii) : Z :=
  let n := Z.of_nat (Ascii.nat_of_ascii c) in
  if n <? 58 then n - 48 else n - 55.

Lemma hex_val_digit : forall d, 0 <= d < 16 -> hex_val (hex_digit d) = d.
Proof.
  intros d Hd.
  assert (Hin : In d (map Z.of_nat (seq 0 16))).
  { rewrite <- (Z2Nat.id d) by lia. apply in_map, in_seq. lia. }
  simpl in Hin. intuition (subst; reflexivity).
Qed.

Lemma hex_digit_inj : forall a b, 0 <= a < 16 -> 0 <= b < 16 -> hex_digit a = hex_digit b -> a = b.
Proof.
  intros a b Ha Hb H.
  rewrite <- (hex_val_digit a Ha), <- (hex_val_digit b Hb), H. reflexivity.
Qed.

Lemma string_app_cancel_l : forall p s t, (p ++ s = p ++ t)%string -> s = t.
Proof. induction p as [|c p IH]; simpl; intros s t H; [exact H|]. injection H. apply IH. Qed.

Lemma hex_upper_app_inj : forall n x y r s,
  (hex_upper n x ++ r = hex_upper n y ++ s)%string ->
  x mod 16 ^ Z.of_nat n = y mod 16 ^ Z.of_nat n /\ r = s.
Proof.
  induction n as [|n IH]; intros x y r s H; simpl in H.
  - rewrite !Z.mod_1_r. auto.
  - injection H as Hd H. destruct (IH x y r s H) as [Hm Hrs]. split; [|exact Hrs].
    apply hex_digit_inj in Hd; [|apply Z.mod_pos_bound; lia|apply Z.mod_pos_bound; lia].
    rewrite Nat2Z.inj_succ, Z.pow_succ_r by lia. rewrite (Z.mul_comm 16).
    rewrite !Z.rem_mul_r by (try apply Z.pow_nonzero; lia).
    rewrite Hm, Hd. reflexivity.
Qed.

(** Every answer of [bcd_decode_to_int] on a byte that the board table
    tests for. *)
Definition board_check (w y : Z) : bool :=
  let s := PCBVersion_to_string (PCBVersion_from_date (bcd_decode_to_int w) (bcd_decode_to_int y)) in
  let v11 := (w =? 0x49) && ((y =? 0x21) || (y =? 0x1B)) in
  let v12 := (w =? 0x27) && ((y =? 0x22) || (y =? 0x1C)) in
  let v13 := (w =? 0x49) && ((y =? 0x22) || (y =? 0x1C)) in
  Bool.eqb (String.eqb s "V1.1") v11 && Bool.eqb (String.eqb s "V1.2") v12 &&
  Bool.eqb (String.eqb s "V1.3") v13 && Bool.eqb (String.eqb s "V_NDEF") (negb (v11 || v12 || v13)).

Lemma board_check_all : forallb (fun w => forallb (fun y => board_check (Z.of_nat w) (Z.of_nat y)) (seq 0 256)) (seq 0 256) = true.
Proof. vm_compute. reflexivity. Qed.

Lemma board_check_bytes : forall w y, 0 <= w < 256 -> 0 <= y < 256 -> board_check w y = true.
Proof.
  intros w y Hw Hy. pose proof board_check_all as H.
  rewrite forallb_forall in H. specialize (H (Z.to_nat w) ltac:(apply in_seq; lia)).
  rewrite forallb_forall in H. specialize (H (Z.to_nat y) ltac:(apply in_seq; lia)).
  rewrite !Z2Nat.id in H by lia. exact H.
Qed.

Lemma eqb_string_iff : forall s t b, Bool.eqb (String.eqb s t) b = true -> (s = t <-> b = true).
Proof.
  intros s t b H. apply Bool.eqb_prop in H. rewrite <- H. symmetry. apply String.eqb_eq.
Qed.

(** X1. [EgsMode::to_string] loses nothing: two modes (with u16 codes)
    are shown as the same text only when they are the same mode; in
    particular an unknown code is never shown as "EGS51". *)
Theorem egs_mode_to_string_injective : forall a b,
  u16_mode a -> u16_mode b -> EgsMode_to_string a = EgsMode_to_string b -> a = b.
Proof.
  intros a b Ha Hb H.
  destruct a as [| | |x], b as [| | |y]; cbn [EgsMode_to_string] in H;
    try reflexivity; try discriminate.
  simpl in Ha, Hb.
  apply string_app_cancel_l in H. apply hex_upper_app_inj in H as [Hm _].
  rewrite !Z.mod_small in Hm by (cbn; lia). subst. reflexivity.
Qed.

Lemma egs_mode_to_string_injective_witness :
  u16_mode (Unknown 0x0254) /\ u16_mode (Unknown 0x0254) /\ Unknown 0x0254 = Unknown 0x0254.
Proof.
  split; [simpl; lia|]. split; [simpl; lia|].
  apply egs_mode_to_string_injective; [simpl; lia|simpl; lia|reflexivity].
Defined.

(** X2. The PCB version shown for an identification record is decided by
    the raw hw-build week and year bytes alone: "V1.1" exactly for week
    0x49 with year 0x21 or 0x1B, "V1.2" for week 0x27 with year 0x22 or
    0x1C, "V1.3" for week 0x49 with year 0x22 or 0x1C, "V_NDEF" otherwise
    (the non-BCD year bytes 0x1B and 0x1C decode to 21 and 22). *)
Theorem board_version_from_hw_bytes : forall i,
  0 <= ecu_hw_build_week i < 256 -> 0 <= ecu_hw_build_year i < 256 ->
  let w := ecu_hw_build_week i in
  let y := ecu_hw_build_year i in
  let s := PCBVersion_to_string (board_ver (ident_data_of i)) in
  (s = "V1.1"%string <-> w = 0x49 /\ (y = 0x21 \/ y = 0x1B)) /\
  (s = "V1.2"%string <-> w = 0x27 /\ (y = 0x22 \/ y = 0x1C)) /\
  (s = "V1.3"%string <-> w = 0x49 /\ (y = 0x22 \/ y = 0x1C)) /\
  (s = "V_NDEF"%string <->
     ~ (w = 0x49 /\ (y = 0x21 \/ y = 0x1B \/ y = 0x22 \/ y = 0x1C)) /\
     ~ (w = 0x27 /\ (y = 0x22 \/ y = 0x1C))).
Proof.
  intros i Hw Hy. cbn zeta. cbn [board_ver ident_data_of].
  pose proof (board_check_bytes _ _ Hw Hy) as H. unfold board_check in H. cbv zeta in H.
  rewrite !andb_true_iff in H. destruct H as [[[H1 H2] H3] H4].
  apply eqb_string_iff in H1, H2, H3, H4.
  rewrite H1, H2, H3, H4.
  rewrite !andb_true_iff, !negb_true_iff, !orb_false_iff, !andb_false_iff, !orb_true_iff,
    !orb_false_iff, !Z.eqb_eq, !Z.eqb_neq.
  repeat split; intuition (subst; try lia).
Qed.

(** A record whose hw-build year byte 0x1B is not BCD. *)
Definition ident_1b : DaimlerEcuIdent :=
  {| diag_info_id := 0x0251; ecu_production_day := 0x01; ecu_production_month := 0x02;
     ecu_production_year := 0x22; ecu_hw_build_week := 0x49; ecu_hw_build_year := 0x1B;
     ecu_sw_build_week := 0x10; ecu_sw_build_year := 0x23 |}.

Lemma board_version_from_hw_bytes_witness :
  (0 <= ecu_hw_build_week ident_1b < 256) /\ (0 <= ecu_hw_build_year ident_1b < 256) /\
  PCBVersion_to_string (board_ver (ident_data_of ident_1b)) = "V1.1"%string.
Proof.
  assert (Hw : 0 <= ecu_hw_build_week ident_1b < 256) by (simpl; lia).
  assert (Hy : 0 <= ecu_hw_build_year ident_1b < 256) by (simpl; lia).
  split; [exact Hw|]. split; [exact Hy|].
  apply (proj1 (board_version_from_hw_bytes ident_1b Hw Hy)). split; [reflexivity|right; reflexivity].
Defined.

End IdentDisplay.

(* ------------------------------------------------------------------ *)
(** ** Adapters and the session handle (backend/src/diag/mod.rs) *)

Module AdapterProps.
Import Diag.

(** [Nag52Diag::can_read_log]: [self.log_receiver.is_some()]. *)
Definition can_read_log {Session} (self : Nag52Diag Session) : bool := log_receiver self.

Section Lib.

Variable Channel Session : Type.
Variable Kwp2000Protocol_default : Kwp2000Protocol.
Variable create_iso_tp_channel : AdapterHw -> HardwareError + Channel.
Variable new_over_iso_tp :
  Kwp2000Protocol -> Channel -> IsoTPSettings -> DiagServerBasicOptions ->
  option DiagServerAdvancedOptions -> DiagError + Session.
Variable open_device_by_name : AdapterType -> HardwareInfo -> HardwareError + Device.

Abbreviation new := (Diag.new Kwp2000Protocol_default create_iso_tp_channel new_over_iso_tp).
Abbreviation try_reconnect :=
  (Diag.try_reconnect Kwp2000Protocol_default create_iso_tp_channel new_over_iso_tp open_device_by_name).

(** X4. [AdapterHw::try_connect] opens the device of the requested type:
    the adapter it returns has [get_type] equal to that type and the
    opened device's [HardwareInfo]; a scanner error is returned as is. *)
Theorem try_connect_requested_type : forall info ty,
  (forall hw, AdapterHw_try_connect open_device_by_name info ty = inr hw ->
     AdapterHw_get_type hw = ty /\
     exists d, open_device_by_name ty info = inr d /\ AdapterHw_get_hw_info hw = dev_info d) /\
  (forall e, AdapterHw_try_connect open_device_by_name info ty = inl e <->
     open_device_by_name ty info = inl e).
Proof.
  intros info ty. unfold AdapterHw_try_connect.
  destruct (open_device_by_name ty info) as [e0|d]; split.
  - discriminate.
  - intros e. split; intros H; injection H as ->; reflexivity.
  - intros hw H. injection H as <-. split; [destruct ty; reflexivity|].
    exists d. split; [reflexivity|destruct ty; reflexivity].
  - intros e. split; discriminate.
Qed.

(** X5. A handle built by [Nag52Diag::new] keeps the adapter as its
    endpoint, with the adapter's type and hardware info; only a USB
    adapter can give it a log receiver. A failure to create the ISO-TP
    channel is returned as a hardware error. *)
Theorem nag52_new_endpoint : forall hw,
  (forall d, new hw = inr d ->
     endpoint d = Some hw /\ endpoint_type d = AdapterHw_get_type hw /\
     info d = AdapterHw_get_hw_info hw /\
     (can_read_log d = true -> exists u, hw = Usb u)) /\
  (forall e, create_iso_tp_channel hw = inl e -> new hw = inl (DiagHardwareError e)).
Proof.
  intros hw. unfold Diag.new. split.
  - intros d. destruct (create_iso_tp_channel hw); [discriminate|].
    destruct (new_over_iso_tp _ _ _ _ _); [discriminate|].
    intros H. injection H as <-. cbn. repeat split.
    unfold can_read_log. cbn. destruct hw; cbn; [eauto|discriminate|discriminate].
  - intros e He. rewrite He. reflexivity.
Qed.

(** X6. [try_reconnect] always looks for the device it had: on failure the
    handle keeps its hardware info, adapter type and log receiver (with
    endpoint and server gone), so a retry asks for the same device; on
    success the new handle has the same adapter type, holds an endpoint,
    and its info is that of the device opened by name. *)
Theorem try_reconnect_same_device : forall self,
  (forall e self', try_reconnect self = (inl e, self') ->
     info self' = info self /\ endpoint_type self' = endpoint_type self /\
     log_receiver self' = log_receiver self /\ endpoint self' = None /\ server self' = None) /\
  (forall self', try_reconnect self = (inr tt, self') ->
     endpoint_type self' = endpoint_type self /\ endpoint self' <> None /\
     exists d, open_device_by_name (endpoint_type self) (info self) = inr d /\ info self' = dev_info d).
Proof.
  intros self. unfold Diag.try_reconnect, AdapterHw_try_connect. cbn [info endpoint_type].
  destruct (open_device_by_name (endpoint_type self) (info self)) as [he|d] eqn:Ho.
  - split; [|discriminate]. intros e self' H. injection H as _ <-. cbn. auto.
  - destruct (Diag.new _ _ _ _) as [e|n] eqn:Hn.
    + split; [|discriminate]. intros e' self' H. injection H as _ <-. cbn. auto.
    + split; [discriminate|]. intros self' H. injection H as <-.
      unfold Diag.new in Hn.
      destruct (create_iso_tp_channel _); [discriminate|].
      destruct (new_over_iso_tp _ _ _ _ _); [discriminate|].
      injection Hn as <-. cbn.
      split; [destruct (endpoint_type self); reflexivity|].
      split; [discriminate|].
      exists d. split; [reflexivity|destruct (endpoint_type self); reflexivity].
Qed.

End Lib.

End AdapterProps.

(* ------------------------------------------------------------------ *)
(** ** The coredump thread: outcomes and edge cases *)

Module ThreadProps.
Import Diag Crash Ecu TransferProps.

(** [ReadState::is_done]: the UI offers a new read only when it holds. *)
Definition ReadState_is_done (s : ReadState) : bool :=
  match s with
  | RS_None => true
  | Prepare => false
  | ReadingBlock _ _ _ => false
  | Completed => true
  | Aborted _ => true
  end.

(** [w'] extends the requests sent in [w] by requests satisfying [P]. *)
Definition sent_more {St} (P : Req -> Prop) (w w' : World St) : Prop :=
  exists new, w_sent w' = w_sent w ++ new /\ Forall P new.

Lemma sent_more_refl : forall St P (w w' : World St), w_sent w' = w_sent w -> sent_more P w w'.
Proof. intros St P w w' H. exists []. rewrite app_nil_r. auto. Qed.

Lemma sent_more_trans : forall St (P : Req -> Prop) (w1 w2 w3 : World St),
  sent_more P w1 w2 -> sent_more P w2 w3 -> sent_more P w1 w3.
Proof.
  intros St P w1 w2 w3 [n1 [E1 F1]] [n2 [E2 F2]]. exists (n1 ++ n2). split.
  - rewrite E2, E1, app_assoc. reflexivity.
  - apply Forall_app. auto.
Qed.

Lemma sent_more_weaken : forall St (P Q : Req -> Prop) (w1 w2 : World St),
  (forall q, P q -> Q q) -> sent_more P w1 w2 -> sent_more Q w1 w2.
Proof.
  intros St P Q w1 w2 HPQ [n [E F]]. exists n. split; [exact E|].
  eapply Forall_impl; [exact HPQ|exact F].
Qed.

(** [init_flash_mode] touches neither the read state nor the files, never
    sends the transfer-exit request and never panics. *)
Lemma init_flash_mode_frame : forall St (ecu : St -> Req -> (DiagError + list Z) * St) (w : World St),
  w_state (snd (init_flash_mode ecu w)) = w_state w /\
  w_published (snd (init_flash_mode ecu w)) = w_published w /\
  w_files (snd (init_flash_mode ecu w)) = w_files w /\
  sent_more (fun q => q <> ReqRaw [0x37]) w (snd (init_flash_mode ecu w)) /\
  ((exists a, fst (init_flash_mode ecu w) = ROk a) \/
   (exists e, fst (init_flash_mode ecu w) = RErr e)).
Proof.
  intros St ecu w. unfold init_flash_mode, bind, exchange, fail, ret.
  repeat (match goal with
          | |- context [ecu ?s ?q] =>
              let E := fresh "E" in destruct (ecu s q) as [[?|?] ?] eqn:E
          | |- context [if ?b then _ else _] => destruct b
          end; cbn [fst snd w_state w_published w_files w_sent w_ecu]);
  (split; [reflexivity|]); (split; [reflexivity|]); (split; [reflexivity|]);
  (split; [unfold sent_more; eexists; split;
           [rewrite <- ?app_assoc; reflexivity | cbn; repeat constructor; discriminate]|]);
  eauto.
Qed.

(** The [while] loop never writes a file and sends only transfer-data
    requests; it leaves an unfinished state unfinished, except when the
    ECU rejects a block, where it publishes [Aborted]. *)
Lemma read_blocks_frame : forall St (ecu : St -> Req -> (DiagError + list Z) * St)
    fuel size bc data i (w : World St),
  ReadState_is_done (w_state w) = false ->
  w_files (snd (read_blocks ecu fuel size bc data i w)) = w_files w /\
  sent_more (fun q => is_transfer_req q = true) w (snd (read_blocks ecu fuel size bc data i w)) /\
  match fst (read_blocks ecu fuel size bc data i w) with
  | ROk (Some _) | RPanic | RFuel => ReadState_is_done (w_state (snd (read_blocks ecu fuel size bc data i w))) = false
  | ROk None => exists reason, w_state (snd (read_blocks ecu fuel size bc data i w)) = Aborted reason
  | RErr _ => False
  end.
Proof.
  intros St ecu fuel. induction fuel as [|fuel IH]; intros size bc data i w Hw; cbn [read_blocks].
  - cbn. split; [reflexivity|]. split; [apply sent_more_refl; reflexivity|exact Hw].
  - destruct (Z.of_nat (List.length data) <? size).
    + unfold try_m, exchange. destruct (ecu (w_ecu w) _) as [[e|p] st'] eqn:E.
      * cbn. split; [reflexivity|]. split; [|eexists; reflexivity].
        unfold sent_more; exists [ReqRaw [0x36; as_u8 (i + 1)]]. split; [reflexivity|]. repeat constructor.
      * cbn [fst snd]. unfold bind, slice_from.
        destruct (Nat.ltb (List.length p) 2).
        -- cbn. split; [reflexivity|]. split; [|exact Hw].
           unfold sent_more; exists [ReqRaw [0x36; as_u8 (i + 1)]]. split; [reflexivity|]. repeat constructor.
        -- unfold ret, publish.
           lazymatch goal with
           | |- context [read_blocks ecu fuel size bc ?d ?j ?W2] =>
               destruct (IH size bc d j W2 eq_refl) as [Hf [Hs Hr]];
               assert (H2 : sent_more (fun q => is_transfer_req q = true) w W2)
                 by (unfold sent_more; exists [ReqRaw [0x36; as_u8 (i + 1)]]; split; [reflexivity|]; repeat constructor);
               destruct (read_blocks ecu fuel size bc d j W2) as [res w3]
           end.
           cbn [fst snd] in *. split; [exact Hf|]. split; [eapply sent_more_trans; eassumption|].
           exact Hr.
    + cbn. split; [reflexivity|]. split; [apply sent_more_refl; reflexivity|exact Hw].
Qed.

(** [on_flash_end] with its [Result] discarded: the read state is kept, the
    outcome is [Ok] or a panic, and a file is touched only after the ECU
    accepted the transfer exit. *)
Lemma ignore_on_flash_end_frame : forall St (ecu : St -> Req -> (DiagError + list Z) * St)
    create_ok path read (w : World St),
  w_state (snd (ignore_err St (on_flash_end ecu create_ok path read) w)) = w_state w /\
  (fst (ignore_err St (on_flash_end ecu create_ok path read) w) = ROk tt \/
   fst (ignore_err St (on_flash_end ecu create_ok path read) w) = RPanic) /\
  (w_files (snd (ignore_err St (on_flash_end ecu create_ok path read) w)) = w_files w \/
   exists p st', ecu (w_ecu w) (ReqRaw [0x37]) = (inr p, st')).
Proof.
  intros St ecu create_ok path read w.
  unfold ignore_err, try_m, on_flash_end, bind, exchange, create_file, slice_from, write_file, ret, panic.
  destruct (ecu (w_ecu w) (ReqRaw [0x37])) as [[e|p] st'] eqn:E.
  - cbn. split; [reflexivity|]. split; [left; reflexivity|left; reflexivity].
  - cbn [fst snd]. destruct (create_ok (path ++ "/dump.elf")%string);
      [destruct (Nat.ltb (List.length read) 20)|]; cbn;
      (split; [reflexivity|]); (split; [auto|right; eauto]).
Qed.

(** The outcomes of the coredump thread: it returns after publishing
    [Aborted] (no file written, no transfer exit sent) or [Completed]
    (a file written only if the ECU accepted a transfer exit), or it
    panics or runs out of the loop bound in an unfinished state with no
    file written. *)
Definition crash_outcome {St} (ecu : St -> Req -> (DiagError + list Z) * St)
    (w : World St) (r : Res unit * World St) : Prop :=
  (fst r = ROk tt /\
   (exists reason, w_state (snd r) = Aborted reason) /\
   w_files (snd r) = w_files w /\
   sent_more (fun q => q <> ReqRaw [0x37]) w (snd r)) \/
  (fst r = ROk tt /\
   w_state (snd r) = Completed /\
   (w_files (snd r) = w_files w \/ exists st p st', ecu st (ReqRaw [0x37]) = (inr p, st'))) \/
  ((fst r = RPanic \/ fst r = RFuel) /\
   ReadState_is_done (w_state (snd r)) = false /\
   (w_files (snd r) = w_files w \/ exists st p st', ecu st (ReqRaw [0x37]) = (inr p, st'))).

Lemma crash_read_cases : forall St (ecu : St -> Req -> (DiagError + list Z) * St)
    create_ok fuel save (w : World St),
  crash_outcome ecu w (crash_read ecu create_ok fuel save w).
Proof.
  intros St ecu create_ok fuel save w. unfold crash_read.
  unfold bind at 1. unfold publish at 1.
  lazymatch goal with
  | |- context [try_m St (init_flash_mode ecu) ?k1 ?k2 ?W1] =>
      set (w1 := W1); set (kok := k1); set (kerr := k2)
  end.
  assert (Hw1 : sent_more (fun q => q <> ReqRaw [0x37]) w w1 /\ w_files w1 = w_files w /\ w_state w1 = Prepare)
    by (split; [apply sent_more_refl; reflexivity | split; reflexivity]).
  clearbody w1. destruct Hw1 as [Hs1 [Hf1 Hst1]].
  unfold try_m.
  destruct (init_flash_mode_frame St ecu w1) as [Hst [_ [Hf [Hs Hres]]]].
  destruct (init_flash_mode ecu w1) as [res w2]. cbn [fst snd] in *.
  pose proof (sent_more_trans _ _ _ _ _ Hs1 Hs) as Hs2. clear Hs Hs1.
  destruct Hres as [[a Ha]|[e He]]; subst res.
  - subst kok. destruct a as [[address size] bs]. cbv beta iota.
    destruct (size =? 0).
    + unfold bind, publish. unfold crash_outcome; cbn. right; left. split; [reflexivity|]. split; [reflexivity|].
      left. congruence.
    + unfold bind at 1, div_u32. destruct (bs =? 0).
      * unfold panic. unfold crash_outcome; cbn. right; right. split; [auto|]. split; [rewrite Hst, Hst1; reflexivity|left; congruence].
      * unfold ret at 1. cbv beta iota.
        assert (Hnd : ReadState_is_done (w_state w2) = false) by (rewrite Hst, Hst1; reflexivity).
        destruct (read_blocks_frame St ecu fuel size (size / bs) [] 0 w2 Hnd) as [Hf3 [Hs3 Hr]].
        unfold bind at 1.
        destruct (read_blocks ecu fuel size (size / bs) [] 0 w2) as [res3 w3]. cbn [fst snd] in *.
        destruct res3 as [[data|]|e| |].
        -- unfold bind at 1.
           destruct (ignore_on_flash_end_frame St ecu create_ok save data w3) as [Hst4 [Hr4 Hf4]].
           destruct (ignore_err St (on_flash_end ecu create_ok save data) w3) as [res4 w4].
           cbn [fst snd] in *.
           destruct Hr4 as [->| ->].
           ++ unfold publish. unfold crash_outcome; cbn. right; left. split; [reflexivity|]. split; [reflexivity|].
              destruct Hf4 as [Hf4|[p [st' E]]]; [left; congruence|right; eauto].
           ++ unfold crash_outcome; cbn. right; right. split; [auto|]. split; [congruence|].
              destruct Hf4 as [Hf4|[p [st' E]]]; [left; congruence|right; eauto].
        -- unfold ret. unfold crash_outcome; cbn. left. split; [reflexivity|]. split; [exact Hr|]. split; [congruence|].
           eapply sent_more_trans; [exact Hs2|].
           eapply sent_more_weaken; [|exact Hs3].
           intros q Hq ->. discriminate.
        -- destruct Hr.
        -- unfold crash_outcome; cbn. right; right. split; [auto|]. split; [exact Hr|left; congruence].
        -- unfold crash_outcome; cbn. right; right. split; [auto|]. split; [exact Hr|left; congruence].
  - subst kerr. cbv beta. unfold publish. unfold crash_outcome; cbn. left. split; [reflexivity|].
    split; [eexists; reflexivity|]. split; [congruence|]. exact Hs2.
Qed.

(** An ECU that rejects every request. *)
Definition reject_all (st : unit) (r : Req) : (DiagError + list Z) * unit :=
  (inl (ECUError 0x22), st).

(** [ecu], except that it rejects the transfer-exit request. *)
Definition reject_exit {St} (ecu : St -> Req -> (DiagError + list Z) * St)
    (st : St) (r : Req) : (DiagError + list Z) * St :=
  match r with
  | ReqRaw [c] => if c =? 0x37 then (inl (ECUError 0x22), st) else ecu st r
  | _ => ecu st r
  end.

(** An ECU that answers every transfer-data request with the 2-byte
    header alone. *)
Definition header_only_ecu (st : unit) (r : Req) : (DiagError + list Z) * unit :=
  (inr [0x76; 0], st).

(** X7: when the coredump thread returns, [is_done] holds for the state it
    leaves, so the UI offers a new read; when it panics (or is still in its
    loop) the state is one for which [is_done] is false. *)
Theorem crash_read_outcome : forall St (ecu : St -> Req -> (DiagError + list Z) * St)
    create_ok fuel save (w : World St),
  (fst (crash_read ecu create_ok fuel save w) = ROk tt /\
   ReadState_is_done (w_state (snd (crash_read ecu create_ok fuel save w))) = true) \/
  ((fst (crash_read ecu create_ok fuel save w) = RPanic \/
    fst (crash_read ecu create_ok fuel save w) = RFuel) /\
   ReadState_is_done (w_state (snd (crash_read ecu create_ok fuel save w))) = false).
Proof.
  intros St ecu create_ok fuel save w.
  destruct (crash_read_cases St ecu create_ok fuel save w) as [[Hr [[reason Hs] _]]|[[Hr [Hs _]]|[Hr [Hs _]]]].
  - left. split; [exact Hr|]. rewrite Hs. reflexivity.
  - left. split; [exact Hr|]. rewrite Hs. reflexivity.
  - right. auto.
Qed.

(** X10: when the coredump thread ends in [Aborted], it has written no
    file and has not sent the transfer-exit request. *)
Theorem crash_read_abort_no_exit : forall St (ecu : St -> Req -> (DiagError + list Z) * St)
    create_ok fuel save (w : World St) reason,
  w_state (snd (crash_read ecu create_ok fuel save w)) = Aborted reason ->
  w_files (snd (crash_read ecu create_ok fuel save w)) = w_files w /\
  exists new, w_sent (snd (crash_read ecu create_ok fuel save w)) = w_sent w ++ new /\
              ~ In (ReqRaw [0x37]) new.
Proof.
  intros St ecu create_ok fuel save w reason Hab.
  destruct (crash_read_cases St ecu create_ok fuel save w) as [[_ [_ [Hf [new [Hs Hall]]]]]|[[_ [Hs _]]|[_ [Hs _]]]].
  - split; [exact Hf|]. exists new. split; [exact Hs|].
    intros Hin. rewrite Forall_forall in Hall. exact (Hall _ Hin eq_refl).
  - congruence.
  - rewrite Hab in Hs. discriminate.
Qed.

Lemma crash_read_abort_no_exit_witness :
  w_state (snd (crash_read reject_all (fun _ => true) 3 "" (init_world tt))) =
    Aborted ("ECU rejected flash programming mode: " ++ "ECU error") /\
  (w_files (snd (crash_read reject_all (fun _ => true) 3 "" (init_world tt))) = w_files (init_world tt) /\
   exists new, w_sent (snd (crash_read reject_all (fun _ => true) 3 "" (init_world tt))) =
                 w_sent (init_world tt) ++ new /\
               ~ In (ReqRaw [0x37]) new).
Proof.
  split; [reflexivity|].
  apply (crash_read_abort_no_exit unit reject_all (fun _ => true) 3 "" (init_world tt)
           ("ECU rejected flash programming mode: " ++ "ECU error")).
  reflexivity.
Defined.




(** X12: with an ECU that rejects every transfer-exit request, the
    coredump thread never writes a file, although [on_flash_end]'s error is
    discarded and the thread still publishes [Completed]. *)
Theorem crash_read_exit_rejected_no_file : forall St (ecu : St -> Req -> (DiagError + list Z) * St)
    create_ok fuel save (w : World St),
  (forall st, exists e st', ecu st (ReqRaw [0x37]) = (inl e, st')) ->
  w_files (snd (crash_read ecu create_ok fuel save w)) = w_files w.
Proof.
  intros St ecu create_ok fuel save w Hrej.
  destruct (crash_read_cases St ecu create_ok fuel save w)
    as [[_ [_ [Hf _]]]|[[_ [_ [Hf|[st [p [st' E]]]]]]|[_ [_ [Hf|[st [p [st' E]]]]]]]];
    try exact Hf;
    destruct (Hrej st) as [e [st'' E']]; congruence.
Qed.

Lemma crash_read_exit_rejected_no_file_witness :
  crash_read (reject_exit (ecu_of 256 dump1000)) (fun _ => true) 5 "out" (init_world dump1000) =
    (ROk tt, snd (crash_read (reject_exit (ecu_of 256 dump1000)) (fun _ => true) 5 "out"
                    (init_world dump1000))) /\
  w_state (snd (crash_read (reject_exit (ecu_of 256 dump1000)) (fun _ => true) 5 "out"
                  (init_world dump1000))) = Completed /\
  w_files (snd (crash_read (reject_exit (ecu_of 256 dump1000)) (fun _ => true) 5 "out"
                  (init_world dump1000))) =
    w_files (init_world dump1000).
Proof.
  split; [vm_compute; reflexivity|]. split; [vm_compute; reflexivity|].
  apply (crash_read_exit_rejected_no_file (list Z) (reject_exit (ecu_of 256 dump1000)) (fun _ => true)
           5 "out" (init_world dump1000)).
  intros st. exists (ECUError 0x22), st. reflexivity.
Defined.

(** X13: if the ECU answers every transfer-data request with the 2-byte
    header alone, [data] never grows: the [while] loop sends one request
    per turn and never ends. *)
Theorem read_blocks_header_only_diverges : forall St (ecu : St -> Req -> (DiagError + list Z) * St),
  (forall st b, exists h0 h1 st', ecu st (ReqRaw [0x36; b]) = (inr [h0; h1], st')) ->
  forall fuel size bc data i (w : World St),
  Z.of_nat (List.length data) < size ->
  fst (read_blocks ecu fuel size bc data i w) = RFuel /\
  List.length (w_sent (snd (read_blocks ecu fuel size bc data i w))) =
    (List.length (w_sent w) + fuel)%nat.
Proof.
  intros St ecu Hecu fuel. induction fuel as [|fuel IH]; intros size bc data i w Hlt.
  - cbn. split; [reflexivity|lia].
  - cbn [read_blocks]. replace (Z.of_nat (List.length data) <? size) with true
      by (symmetry; apply Z.ltb_lt; exact Hlt).
    destruct (Hecu (w_ecu w) (as_u8 (i + 1))) as [h0 [h1 [st' E]]].
    unfold try_m, exchange. rewrite E. cbn [fst snd].
    unfold bind, slice_from. cbn [List.length Nat.ltb Nat.leb skipn].
    unfold ret, publish.
    lazymatch goal with
    | |- context [read_blocks ecu fuel size bc ?d ?j ?W2] =>
        destruct (IH size bc d j W2) as [Hr Hl]
    end.
    + rewrite app_nil_r. exact Hlt.
    + split; [exact Hr|]. rewrite Hl. cbn [w_sent]. rewrite length_app. cbn. lia.
Qed.

Lemma read_blocks_header_only_diverges_witness :
  Z.of_nat (List.length (@nil Z)) < 100 /\
  fst (read_blocks header_only_ecu 4 100 1 [] 0 (init_world tt)) = RFuel /\
  List.length (w_sent (snd (read_blocks header_only_ecu 4 100 1 [] 0 (init_world tt)))) = 4%nat.
Proof.
  split; [cbn; lia|].
  apply (read_blocks_header_only_diverges unit header_only_ecu); [|cbn; lia].
  intros st b. exists 0x76, 0, st. reflexivity.
Defined.

(** X14: if the ECU grants block size 0, [size.1 / size.2] panics after
    the three setup requests, leaving the state at [Prepare], for which
    [is_done] is false. *)
Theorem crash_read_zero_block_size : forall dump create_ok fuel save (w : World (list Z)),
  (0 < List.length dump)%nat -> Z.of_nat (List.length dump) < 2 ^ 32 ->
  crash_read (ecu_of 0 dump) create_ok fuel save w =
    (RPanic, {| w_ecu := w_ecu w;
                w_sent := w_sent w ++ [ReqSetSession SESSION_REPROGRAMMING; ReqReadLocalId 0x24;
                                       ReqRaw (upload_req 0x3C0000 (Z.of_nat (List.length dump)))];
                w_state := Prepare; w_published := w_published w ++ [Prepare];
                w_files := w_files w |}).
Proof.
  intros dump create_ok fuel save w Hpos Hlen.
  unfold crash_read, ecu_of. unfold bind at 1, publish at 1. unfold try_m.
  rewrite init_flash_mode_dump by lia. cbv beta iota.
  replace (Z.of_nat (List.length dump) =? 0) with false by (symmetry; apply Z.eqb_neq; lia).
  reflexivity.
Qed.

Lemma crash_read_zero_block_size_witness :
  (0 < List.length [1; 2; 3])%nat /\ Z.of_nat (List.length [1; 2; 3]) < 2 ^ 32 /\
  crash_read (ecu_of 0 [1; 2; 3]) (fun _ => true) 10 "out" (init_world [1; 2; 3]) =
    (RPanic, {| w_ecu := [1; 2; 3];
                w_sent := [ReqSetSession SESSION_REPROGRAMMING; ReqReadLocalId 0x24;
                           ReqRaw (upload_req 0x3C0000 3)];
                w_state := Prepare; w_published := [Prepare]; w_files := [] |}).
Proof.
  split; [cbn; lia|]. split; [cbn; lia|].
  apply (crash_read_zero_block_size [1; 2; 3] (fun _ => true) 10 "out" (init_world [1; 2; 3])); cbn; lia.
Defined.

(** X8: the early exits of [init_flash_mode]: a rejected session change
    is returned at once; an identifier-0x24 answer that is not 8 bytes long
    gives [InvalidResponseLength]; a reported size of 0 gives [(0, 0, 0)]
    without a request-upload. *)
Theorem init_flash_mode_early_exits : forall St (ecu : St -> Req -> (DiagError + list Z) * St)
    (w : World St),
  (forall e st1, ecu (w_ecu w) (ReqSetSession SESSION_REPROGRAMMING) = (inl e, st1) ->
     init_flash_mode ecu w = (RErr e, sent_to w st1 [ReqSetSession SESSION_REPROGRAMMING])) /\
  (forall p1 st1 res st2,
     ecu (w_ecu w) (ReqSetSession SESSION_REPROGRAMMING) = (inr p1, st1) ->
     ecu st1 (ReqReadLocalId 0x24) = (inr res, st2) ->
     List.length res <> 8%nat ->
     init_flash_mode ecu w =
       (RErr InvalidResponseLength,
        sent_to w st2 [ReqSetSession SESSION_REPROGRAMMING; ReqReadLocalId 0x24])) /\
  (forall p1 st1 a st2,
     ecu (w_ecu w) (ReqSetSession SESSION_REPROGRAMMING) = (inr p1, st1) ->
     ecu st1 (ReqReadLocalId 0x24) = (inr (a ++ [0; 0; 0; 0]), st2) ->
     List.length a = 4%nat ->
     init_flash_mode ecu w =
       (ROk (0, 0, 0),
        sent_to w st2 [ReqSetSession SESSION_REPROGRAMMING; ReqReadLocalId 0x24])).
Proof.
  intros St ecu w. unfold init_flash_mode, bind, exchange, fail, ret.
  split; [|split].
  - intros e st1 E. rewrite E. reflexivity.
  - intros p1 st1 res st2 E1 E2 Hl. rewrite E1. cbn [w_ecu]. rewrite E2.
    replace (negb (Nat.eqb (List.length res) 8)) with true
      by (symmetry; apply negb_true_iff, Nat.eqb_neq; exact Hl).
    unfold sent_to. cbn. rewrite <- app_assoc. reflexivity.
  - intros p1 st1 a st2 E1 E2 Hl. rewrite E1. cbn [w_ecu]. rewrite E2.
    destruct a as [|a0 [|a1 [|a2 [|a3 [|a4 a]]]]]; cbn in Hl; try discriminate.
    unfold sent_to. cbn. rewrite <- app_assoc. reflexivity.
Qed.

(** Little-endian decoding of four bytes, and the bytes [as u8] of
    [x >> 16], [x >> 8] and [x] give back three of them. *)
Lemma le_decode4_bytes : forall b0 b1 b2 b3,
  0 <= b0 < 256 -> 0 <= b1 < 256 -> 0 <= b2 < 256 -> 0 <= b3 < 256 ->
  Firmware.le_decode [b0; b1; b2; b3] = b0 + 256 * b1 + 65536 * b2 + 16777216 * b3 /\
  as_u8 (Z.shiftr (Firmware.le_decode [b0; b1; b2; b3]) 16) = b2 /\
  as_u8 (Z.shiftr (Firmware.le_decode [b0; b1; b2; b3]) 8) = b1 /\
  as_u8 (Firmware.le_decode [b0; b1; b2; b3]) = b0.
Proof.
  intros b0 b1 b2 b3 H0 H1 H2 H3.
  assert (Hd : Firmware.le_decode [b0; b1; b2; b3] = b0 + 256 * b1 + 65536 * b2 + 16777216 * b3)
    by (cbn [Firmware.le_decode]; lia).
  split; [exact Hd|]. rewrite Hd.
  unfold as_u8. change 255 with (Z.ones 8). rewrite !Z.land_ones by lia.
  rewrite !Z.shiftr_div_pow2 by lia.
  change (2 ^ 16) with 65536. change (2 ^ 8) with 256.
  split; [|split].
  - rewrite <- (Z.div_unique_pos _ 65536 (b2 + 256 * b3) (b0 + 256 * b1)) by lia.
    symmetry. apply (Z.mod_unique_pos _ 256 b3); lia.
  - rewrite <- (Z.div_unique_pos _ 256 (b1 + 256 * b2 + 65536 * b3) b0) by lia.
    symmetry. apply (Z.mod_unique_pos _ 256 (b2 + 256 * b3)); lia.
  - symmetry. apply (Z.mod_unique_pos _ 256 (b1 + 256 * b2 + 65536 * b3)); lia.
Qed.

(** X9: after an 8-byte answer [a0 .. a3; s0 .. s3] with a nonzero size,
    the request-upload carries the three low bytes of the address and of
    the size, most significant first (the top bytes [a3], [s3] are not
    sent); a 3-byte answer [_; hi; lo] gives the little-endian address,
    the size and the block size [256 * hi + lo], any other length gives
    [InvalidResponseLength]. *)
Theorem init_flash_mode_upload : forall St (ecu : St -> Req -> (DiagError + list Z) * St)
    (w : World St) p1 st1 a0 a1 a2 a3 s0 s1 s2 s3 st2 res2 st3,
  Forall (fun b => 0 <= b < 256) [a0; a1; a2; a3; s0; s1; s2; s3] ->
  s0 + s1 + s2 + s3 <> 0 ->
  ecu (w_ecu w) (ReqSetSession SESSION_REPROGRAMMING) = (inr p1, st1) ->
  ecu st1 (ReqReadLocalId 0x24) = (inr [a0; a1; a2; a3; s0; s1; s2; s3], st2) ->
  ecu st2 (ReqRaw [0x35; 0x31; a2; a1; a0; s2; s1; s0]) = (inr res2, st3) ->
  (forall r0 r1 r2, res2 = [r0; r1; r2] -> 0 <= r1 < 256 -> 0 <= r2 < 256 ->
     init_flash_mode ecu w =
       (ROk (a0 + 256 * a1 + 65536 * a2 + 16777216 * a3,
             s0 + 256 * s1 + 65536 * s2 + 16777216 * s3,
             256 * r1 + r2),
        sent_to w st3 [ReqSetSession SESSION_REPROGRAMMING; ReqReadLocalId 0x24;
                       ReqRaw [0x35; 0x31; a2; a1; a0; s2; s1; s0]])) /\
  (List.length res2 <> 3%nat ->
     init_flash_mode ecu w =
       (RErr InvalidResponseLength,
        sent_to w st3 [ReqSetSession SESSION_REPROGRAMMING; ReqReadLocalId 0x24;
                       ReqRaw [0x35; 0x31; a2; a1; a0; s2; s1; s0]])).
Proof.
  intros St ecu w p1 st1 a0 a1 a2 a3 s0 s1 s2 s3 st2 res2 st3 Hb Hs E1 E2 E3.
  repeat (match type of Hb with Forall _ (_ :: _) => apply Forall_cons_iff in Hb; destruct Hb as [? Hb] end).
  destruct (le_decode4_bytes a0 a1 a2 a3) as [Ha [Ha2 [Ha1 Ha0]]]; try assumption.
  destruct (le_decode4_bytes s0 s1 s2 s3) as [Hz [Hs2 [Hs1 Hs0]]]; try assumption.
  unfold init_flash_mode, bind, exchange, fail, ret.
  rewrite E1. cbn [w_ecu]. rewrite E2. cbn [List.length Nat.eqb negb].
  unfold Firmware.slice. cbn [skipn firstn Nat.sub].
  replace (Firmware.le_decode [s0; s1; s2; s3] =? 0) with false
    by (symmetry; apply Z.eqb_neq; rewrite Hz; lia).
  rewrite Ha2, Ha1, Ha0, Hs2, Hs1, Hs0. cbn [w_ecu]. rewrite E3.
  split.
  - intros r0 r1 r2 -> Hr1 Hr2. cbn [List.length Nat.eqb negb nth].
    rewrite Ha, Hz.
    replace (Z.lor (Z.shiftl r1 8) r2) with (256 * r1 + r2).
    + unfold sent_to. cbn. rewrite <- !app_assoc. reflexivity.
    + rewrite <- (block_size_bytes (256 * r1 + r2)) by lia. f_equal; [f_equal|].
      * symmetry. apply (Z.div_unique_pos _ 256 r1 r2); lia.
      * symmetry. apply (Z.mod_unique_pos _ 256 r1 r2); lia.
  - intros Hl.
    replace (negb (Nat.eqb (List.length res2) 3)) with true
      by (symmetry; apply negb_true_iff, Nat.eqb_neq; exact Hl).
    unfold sent_to. cbn. rewrite <- !app_assoc. reflexivity.
Qed.

Lemma init_flash_mode_upload_witness :
  let ecu := dump_ecu 0x01020304 0x0110 0x0A0B0C0D in
  Forall (fun b => 0 <= b < 256) [0x04; 0x03; 0x02; 0x01; 0x0D; 0x0C; 0x0B; 0x0A] /\
  init_flash_mode ecu (init_world []) =
    (ROk (0x01020304, 0x0A0B0C0D, 0x0110),
     sent_to (init_world []) [] [ReqSetSession SESSION_REPROGRAMMING; ReqReadLocalId 0x24;
                                 ReqRaw [0x35; 0x31; 0x02; 0x03; 0x04; 0x0B; 0x0C; 0x0D]]).
Proof.
  intros ecu. split; [repeat constructor; lia|].
  destruct (init_flash_mode_upload (list Z) ecu (init_world []) [] []
              0x04 0x03 0x02 0x01 0x0D 0x0C 0x0B 0x0A [] [0x75; 0x01; 0x10] [])
    as [H _]; [repeat constructor; lia | lia | reflexivity | reflexivity | reflexivity |].
  apply (H 0x75 0x01 0x10); [reflexivity | lia | lia].
Defined.

End ThreadProps.

(* ------------------------------------------------------------------ *)
(** ** settings_ui_gen.rs: loading the advanced-settings page *)

Module SettingsPage.
Import Diag Crash Settings Ecu TransferProps.

(** [PageLoadState] of window.rs. *)
Inductive PageLoadState : Type :=
| PL_Ok
| PL_Waiting (reason : string)
| PL_Err (msg : string).

(** The request [read_scn_settings] sends for [T]. *)
Definition scn_req (T : TcuSettings) : Req := ReqRaw [0x21; 0xFC; get_scn_id T].

Section Page.
Variable SrvSt Session : Type.
Variable ecu : SrvSt -> Req -> (DiagError + list Z) * SrvSt.

(** [kwp_set_session(mode)] on the open server. *)
Definition kwp_set_session (mode : Z) (w : World SrvSt) : (DiagError + list Z) * World SrvSt :=
  let (res, st') := ecu (w_ecu w) (ReqSetSession mode) in
  (res, {| w_ecu := st'; w_sent := w_sent w ++ [ReqSetSession mode]; w_state := w_state w;
           w_published := w_published w; w_files := w_files w |}).

(** The [read_scn_settings] calls of the thread, in order, with the states
    they write to the wrappers. *)
Fixpoint read_all (Ts : list TcuSettings) : M SrvSt (list (DataState (list Z))) :=
  match Ts with
  | [] => ret SrvSt []
  | T :: Ts' =>
      bind SrvSt (read_scn_settings ecu T) (fun d =>
      bind SrvSt (read_all Ts') (fun ds =>
      ret SrvSt (d :: ds)))
  end.

(** The thread spawned by [TcuAdvSettingsUi::new], reading the settings
    types [Ts] (TCC, SOL, SBS, NAG, PRM, ADP and ETS in the code): its
    last write to [ready] and the states of the wrappers, which stay
    [Unint] unless read. The [Waiting] states written before are not
    kept. *)
Definition adv_settings_thread (self : Nag52Diag Session) (Ts : list TcuSettings)
    : M SrvSt (PageLoadState * list (DataState (list Z))) :=
  fun w =>
    let (res, w1) := with_kwp self (fun _ => kwp_set_session 0x93) w in
    match res with
    | inr _ => bind SrvSt (read_all Ts) (fun ds => ret SrvSt (PL_Ok, ds)) w1
    | inl e => (ROk (PL_Err (diag_error_string e), map (fun _ => Unint) Ts), w1)
    end.

End Page.

Arguments kwp_set_session {SrvSt} ecu mode w.
Arguments read_all {SrvSt} ecu Ts _.
Arguments adv_settings_thread {SrvSt Session} ecu self Ts _.

(** [read_scn_settings], one request: an [Err] is stored, an answer shorter
    than 2 bytes panics, a longer one is unpacked after its 2-byte header. *)
Lemma read_scn_settings_eq : forall St (ecu : St -> Req -> (DiagError + list Z) * St) T (w : World St),
  read_scn_settings ecu T w =
    (match fst (ecu (w_ecu w) (scn_req T)) with
     | inl e => ROk (LoadErr (diag_error_string e))
     | inr res =>
         if Nat.ltb (List.length res) 2 then RPanic
         else ROk (match unpack_settings T (get_scn_id T) (skipn 2 res) with
                   | inr r => LoadOk r
                   | inl e => LoadErr e
                   end)
     end,
     sent_to w (snd (ecu (w_ecu w) (scn_req T))) [scn_req T]).
Proof.
  intros St ecu T w. unfold read_scn_settings, try_m, exchange, bind, slice_from, ret, panic, scn_req.
  destruct (ecu (w_ecu w) (ReqRaw [0x21; 0xFC; get_scn_id T])) as [[e|res] st'].
  - reflexivity.
  - cbn [fst snd]. destruct (Nat.ltb (List.length res) 2); reflexivity.
Qed.

Lemma sent_to_app : forall St (w : World St) st1 st2 r1 r2,
  sent_to (sent_to w st1 r1) st2 r2 = sent_to w st2 (r1 ++ r2).
Proof. intros. unfold sent_to. cbn. rewrite app_assoc. reflexivity. Qed.

Lemma read_all_ok : forall St (ecu : St -> Req -> (DiagError + list Z) * St) Ts (w : World St),
  (forall st T res st', In T Ts -> ecu st (scn_req T) = (inr res, st') -> (2 <= List.length res)%nat) ->
  exists ds st', read_all ecu Ts w = (ROk ds, sent_to w st' (map scn_req Ts)) /\
                 List.length ds = List.length Ts /\ Forall (fun d => d <> Unint) ds.
Proof.
  intros St ecu Ts. induction Ts as [|T Ts IH]; intros w Hlong.
  - exists [], (w_ecu w). split; [|split; [reflexivity|constructor]].
    unfold sent_to. cbn. rewrite app_nil_r. destruct w; reflexivity.
  - cbn [read_all]. unfold bind at 1. rewrite read_scn_settings_eq.
    destruct (ecu (w_ecu w) (scn_req T)) as [[e|res] st1] eqn:E; cbn [fst snd].
    + destruct (IH (sent_to w st1 [scn_req T])) as [ds [st' [Hr [Hl Hu]]]].
      { intros st T' res st' HT. apply Hlong. right. exact HT. }
      exists (LoadErr (diag_error_string e) :: ds), st'. unfold bind. rewrite Hr.
      split; [rewrite sent_to_app; reflexivity|]. split; [cbn; congruence|].
      constructor; [discriminate|exact Hu].
    + pose proof (Hlong _ T res st1 (or_introl eq_refl) E) as H2.
      replace (Nat.ltb (List.length res) 2) with false by (symmetry; apply Nat.ltb_ge; exact H2).
      destruct (IH (sent_to w st1 [scn_req T])) as [ds [st' [Hr [Hl Hu]]]].
      { intros st T' res' st' HT. apply Hlong. right. exact HT. }
      set (d := match unpack_settings T (get_scn_id T) (skipn 2 res) with
                | inr r => LoadOk r | inl e => LoadErr e end).
      exists (d :: ds), st'. unfold bind. rewrite Hr.
      split; [rewrite sent_to_app; reflexivity|]. split; [cbn; congruence|].
      constructor; [|exact Hu].
      subst d. destruct (unpack_settings T (get_scn_id T) (skipn 2 res)); discriminate.
Qed.

Lemma read_all_panic : forall St (ecu : St -> Req -> (DiagError + list Z) * St) Ts T0 (w : World St),
  In T0 Ts ->
  (forall st, exists res st', ecu st (scn_req T0) = (inr res, st') /\ (List.length res < 2)%nat) ->
  fst (read_all ecu Ts w) = RPanic.
Proof.
  intros St ecu Ts. induction Ts as [|T Ts IH]; intros T0 w HIn Hshort.
  - destruct HIn.
  - cbn [read_all]. unfold bind at 1. rewrite read_scn_settings_eq.
    destruct (ecu (w_ecu w) (scn_req T)) as [[e|res] st1] eqn:E; cbn [fst snd].
    + destruct HIn as [<-|HIn].
      * destruct (Hshort (w_ecu w)) as [res [st' [E' _]]]. congruence.
      * unfold bind. pose proof (IH T0 (sent_to w st1 [scn_req T]) HIn Hshort) as Hp.
        destruct (read_all ecu Ts (sent_to w st1 [scn_req T])) as [[| | |] w2];
          cbn in Hp; try discriminate; reflexivity.
    + destruct (Nat.ltb (List.length res) 2) eqn:Hlt; [reflexivity|].
      destruct HIn as [<-|HIn].
      * destruct (Hshort (w_ecu w)) as [res' [st' [E' Hl]]]. rewrite E in E'.
        injection E' as -> ->. apply Nat.ltb_ge in Hlt. lia.
      * unfold bind. pose proof (IH T0 (sent_to w st1 [scn_req T]) HIn Hshort) as Hp.
        destruct (read_all ecu Ts (sent_to w st1 [scn_req T])) as [[| | |] w2];
          cbn in Hp; try discriminate; reflexivity.
Qed.

(** X15: the thread of [TcuAdvSettingsUi::new]. With no open server,
    or when the ECU rejects the session change to 0x93, the page shows the
    error and no settings request is sent, every wrapper staying [Unint].
    When the session is accepted and every settings answer has its 2-byte
    header, the page ends [Ok], after one request per settings type in
    order, with no wrapper left [Unint]. An answer shorter than 2 bytes to
    any of them panics the thread before it writes [Ok]. *)
Theorem adv_settings_thread_outcome : forall St Session (ecu : St -> Req -> (DiagError + list Z) * St)
    (self : Nag52Diag Session) Ts (w : World St),
  (server self = None ->
     adv_settings_thread ecu self Ts w =
       (ROk (PL_Err (diag_error_string (DiagHardwareError DeviceNotOpen)), map (fun _ => Unint) Ts), w)) /\
  (forall k e st1, server self = Some k ->
     ecu (w_ecu w) (ReqSetSession 0x93) = (inl e, st1) ->
     adv_settings_thread ecu self Ts w =
       (ROk (PL_Err (diag_error_string e), map (fun _ => Unint) Ts), sent_to w st1 [ReqSetSession 0x93])) /\
  (forall k p st1, server self = Some k ->
     ecu (w_ecu w) (ReqSetSession 0x93) = (inr p, st1) ->
     (forall st T res st', In T Ts -> ecu st (scn_req T) = (inr res, st') -> (2 <= List.length res)%nat) ->
     exists ds st', adv_settings_thread ecu self Ts w =
                      (ROk (PL_Ok, ds), sent_to w st' (ReqSetSession 0x93 :: map scn_req Ts)) /\
                    List.length ds = List.length Ts /\ Forall (fun d => d <> Unint) ds) /\
  (forall k p st1 T0, server self = Some k ->
     ecu (w_ecu w) (ReqSetSession 0x93) = (inr p, st1) ->
     In T0 Ts ->
     (forall st, exists res st', ecu st (scn_req T0) = (inr res, st') /\ (List.length res < 2)%nat) ->
     fst (adv_settings_thread ecu self Ts w) = RPanic).
Proof.
  intros St Session ecu self Ts w. unfold adv_settings_thread, with_kwp, kwp_set_session.
  split; [|split; [|split]].
  - intros Hn. rewrite Hn. reflexivity.
  - intros k e st1 Hk E. rewrite Hk, E. reflexivity.
  - intros k p st1 Hk E Hlong. rewrite Hk, E.
    destruct (read_all_ok St ecu Ts (sent_to w st1 [ReqSetSession 0x93]) Hlong) as [ds [st' [Hr [Hl Hu]]]].
    exists ds, st'. unfold sent_to at 1 in Hr. unfold bind. rewrite Hr.
    split; [|split; assumption]. rewrite sent_to_app. reflexivity.
  - intros k p st1 T0 Hk E HIn Hshort. rewrite Hk, E.
    pose proof (read_all_panic St ecu Ts T0 (sent_to w st1 [ReqSetSession 0x93]) HIn Hshort) as Hp.
    unfold sent_to at 1 in Hp. unfold bind.
    destruct (read_all ecu Ts _) as [[| | |] w2]; cbn in Hp; try discriminate; reflexivity.
Qed.

(** A TCU that accepts every session change and answers a settings
    request with the header [0x61; id] and [n] zero bytes. *)
Definition settings_ecu (n : nat) (st : unit) (r : Req) : (DiagError + list Z) * unit :=
  match r with
  | ReqSetSession _ => (inr [], st)
  | ReqRaw (0x21 :: 0xFC :: id :: _) => (inr (0x61 :: id :: repeat 0 n), st)
  | _ => (inl (ECUError 0x11), st)
  end.

Definition open_diag : Nag52Diag unit :=
  {| info := {| hw_name := "usb0" |}; endpoint := None; endpoint_type := AT_USB;
     server := Some tt; log_receiver := false |}.

Lemma adv_settings_thread_outcome_witness :
  adv_settings_thread (settings_ecu 9) open_diag [SettingsProps.demo_settings] (init_world tt) =
    (ROk (PL_Ok, [LoadOk [0; 0; 0; 0]]),
     sent_to (init_world tt) tt [ReqSetSession 0x93; ReqRaw [0x21; 0xFC; 0x01]]) /\
  exists ds st', adv_settings_thread (settings_ecu 9) open_diag [SettingsProps.demo_settings] (init_world tt) =
                   (ROk (PL_Ok, ds), sent_to (init_world tt) st'
                                       (ReqSetSession 0x93 :: map scn_req [SettingsProps.demo_settings])) /\
                 List.length ds = List.length [SettingsProps.demo_settings] /\ Forall (fun d => d <> Unint) ds.
Proof.
  split; [vm_compute; reflexivity|].
  destruct (adv_settings_thread_outcome unit unit (settings_ecu 9) open_diag [SettingsProps.demo_settings]
              (init_world tt)) as [_ [_ [H _]]].
  apply (H tt [] tt); [reflexivity | reflexivity |].
  intros st T res st' [<-|[]] E. cbn in E. injection E as <- _. cbn. lia.
Defined.

End SettingsPage.
